(** * Download analytics and enrichment pipeline of [@orgsoft/jsr]

    A shallow embedding of [common.ts] (the search gateway [queryOrama],
    the enrichment pipeline [findSimilarPackages], the time-series
    aggregator [getPackageDownloadSummary]) and of the [compare] tool of
    [mcp.ts], followed by the properties of these functions.  The other
    search entry points and registry requests of [common.ts] and the
    [find_similar], [package_details] and [package_downloads] tools
    are embedded as well.

    Conventions of the embedding.
    - A JavaScript [number] that the code uses as a count, an index or a
      limit is a [Z]; download counts are integers well inside the range
      in which IEEE doubles add exactly.  The divisions and products of
      the aggregator are the IEEE-754 binary64 ones: the exact rational
      result rounded to the nearest double, ties to even; [Math.round]
      then rounds the value of that double.
    - A string is a [string] of bytes (the UTF-8 image of the JavaScript
      string).
    - An optional property read with [?.] or [||] is an [option]; an
      options object that is spread into another one keeps, for each key,
      whether the key is absent, holds [undefined], or holds a value.
    - The network is an abstract world threaded through every call; every
      request is also appended to a trace. *)

From Stdlib Require Import ZArith List String Ascii Bool Lia QArith Qround.
From Stdlib Require Import DecimalString.
Import ListNotations.

#[local] Open Scope string_scope.
#[local] Open Scope list_scope.
#[local] Open Scope Z_scope.

(** ** JavaScript values *)

Module Js.

(** A key of an object literal. *)
Inductive field (A : Type) : Type :=
| Absent
| Undefined
| Val (a : A).
Arguments Absent {A}.
Arguments Undefined {A}.
Arguments Val {A} a.

(** [o.k] *)
Definition get {A} (f : field A) : option A :=
  match f with
  | Val a => Some a
  | Absent | Undefined => None
  end.

(** [{ k: base, ...o }]: an own key of [o] wins, even when it holds
    [undefined]. *)
Definition spread {A} (base : field A) (o : field A) : field A :=
  match o with
  | Absent => base
  | Undefined | Val _ => o
  end.

(** [x || d] on numbers: [undefined] and [0] are falsy. *)
Definition or_num (x : option Z) (d : Z) : Z :=
  match x with
  | Some v => if v =? 0 then d else v
  | None => d
  end.

(** Truthiness of a string: the empty string is falsy. *)
Definition truthy_str (s : string) : bool :=
  match s with
  | EmptyString => false
  | String _ _ => true
  end.

(** [x || d] on strings. *)
Definition or_str (x : option string) (d : string) : string :=
  match x with
  | Some v => if truthy_str v then v else d
  | None => d
  end.

(** [x || undefined] on strings. *)
Definition or_undefined (x : option string) : option string :=
  match x with
  | Some v => if truthy_str v then Some v else None
  | None => None
  end.

(** Truthiness of an optional string property ([undefined] is falsy). *)
Definition truthy_opt_str (x : option string) : bool :=
  match x with
  | Some v => truthy_str v
  | None => false
  end.

(** [Array.prototype.slice(start, end)]; [end_ = None] is an omitted
    second argument. *)
Definition slice {A} (l : list A) (start : Z) (end_ : option Z) : list A :=
  let len := Z.of_nat (List.length l) in
  let k := if start <? 0 then Z.max (len + start) 0 else Z.min start len in
  let final :=
    match end_ with
    | None => len
    | Some e => if e <? 0 then Z.max (len + e) 0 else Z.min e len
    end in
  firstn (Z.to_nat (final - k)) (skipn (Z.to_nat k) l).

(** [x || []] on arrays: only [undefined] is falsy. *)
Definition or_empty {A} (x : option (list A)) : list A :=
  match x with
  | Some l => l
  | None => []
  end.

(** [Array.prototype.unshift] with one argument. *)
Definition unshift {A} (x : A) (l : list A) : list A := x :: l.

(** [Math.round]: the nearest integer, halves going up. *)
Definition Math_round (x : Q) : Z := Qfloor (x + (1 # 2)).

(** The integer nearest to [A / B], ties to the even one ([B > 0]). *)
Definition round_half_even (A B : Z) : Z :=
  let f := A / B in
  let r := A mod B in
  match 2 * r ?= B with
  | Lt => f
  | Gt => f + 1
  | Eq => if Z.even f then f else f + 1
  end.

(** [floor(log2(n / d))] for [n > 0] and [d > 0]. *)
Definition binade (n d : Z) : Z :=
  if d <=? n then Z.log2 (n / d) else - Z.log2_up ((d + n - 1) / n).

(** The double nearest to [n / d], ties to even, for [n > 0] and
    [d > 0]: 53 significant bits in the binade of [n / d].  The
    quotients and products of this program stay in the normal range of
    the doubles. *)
Definition round64_pos (n d : Z) : Q :=
  let e := binade n d in
  if 52 <=? e
  then inject_Z (round_half_even n (d * 2 ^ (e - 52)) * 2 ^ (e - 52))
  else round_half_even (n * 2 ^ (52 - e)) d # Z.to_pos (2 ^ (52 - e)).

(** The double nearest to a rational, ties to even. *)
Definition round64 (x : Q) : Q :=
  match Qnum x with
  | 0 => 0%Q
  | Z.pos n => round64_pos (Z.pos n) (Z.pos (Qden x))
  | Z.neg n => (- round64_pos (Z.pos n) (Z.pos (Qden x)))%Q
  end.

(** [a / b] on two numbers holding integers. *)
Definition Number_div (a b : Z) : Q := round64 (inject_Z a / inject_Z b).

(** [a * b] on two numbers holding integers. *)
Definition Number_mul (a b : Z) : Q := round64 (inject_Z a * inject_Z b).

(** [String(n)] for an integer [n]. *)
Definition String_of_num (n : Z) : string :=
  NilZero.string_of_int (Z.to_int n).

(** [a[a.length - 1]] *)
Definition last_elt {A} (l : list A) : option A :=
  nth_error l (List.length l - 1)%nat.

Definition is_space (c : ascii) : bool :=
  match c with
  | " "%char | "009"%char | "010"%char | "011"%char | "012"%char
  | "013"%char => true
  | _ => false
  end.

Definition is_byte (c : ascii) (n : nat) : bool :=
  Nat.eqb (nat_of_ascii c) n.

(** The two bytes of U+00A0. *)
Definition is_space2 (c1 c2 : ascii) : bool :=
  is_byte c1 194 && is_byte c2 160.

(** The three bytes of U+1680, U+2000 to U+200A, U+2028, U+2029,
    U+202F, U+205F, U+3000 or U+FEFF. *)
Definition is_space3 (c1 c2 c3 : ascii) : bool :=
  (is_byte c1 225 && is_byte c2 154 && is_byte c3 128)
  || (is_byte c1 226 && is_byte c2 128
      && ((Nat.leb 128 (nat_of_ascii c3) && Nat.leb (nat_of_ascii c3) 138)
          || is_byte c3 168 || is_byte c3 169 || is_byte c3 175))
  || (is_byte c1 226 && is_byte c2 129 && is_byte c3 159)
  || (is_byte c1 227 && is_byte c2 128 && is_byte c3 128)
  || (is_byte c1 239 && is_byte c2 187 && is_byte c3 191).

(** Strips the white space and line terminators at the start of a list
    of bytes; with [backwards] the list is read from the end of the
    string, each character with its last byte first. *)
Fixpoint strip (backwards : bool) (l : list ascii) : list ascii :=
  match l with
  | [] => []
  | c1 :: l1 =>
      if is_space c1 then strip backwards l1
      else
        match l1 with
        | [] => l
        | c2 :: l2 =>
            if (if backwards then is_space2 c2 c1 else is_space2 c1 c2)
            then strip backwards l2
            else
              match l2 with
              | [] => l
              | c3 :: l3 =>
                  if (if backwards then is_space3 c3 c2 c1
                      else is_space3 c1 c2 c3)
                  then strip backwards l3
                  else l
              end
        end
  end.

Definition trim_start (s : string) : string :=
  string_of_list_ascii (strip false (list_ascii_of_string s)).

Definition trim_end (s : string) : string :=
  string_of_list_ascii
    (rev (strip true (rev (list_ascii_of_string s)))).

(** [String.prototype.trim]: the white space (TAB, VT, FF, SP, U+00A0,
    U+FEFF and the space separators) and the line terminators (LF, CR,
    U+2028, U+2029) are stripped from both ends. *)
Definition trim (s : string) : string := trim_end (trim_start s).

End Js.

Import Js.

(** ** Data model of [common.ts] *)

Module JsrDownloadPoint.
Record t : Type := mk { timeBucket : string; count : Z }.
End JsrDownloadPoint.

Module JsrVersionDownloads.
Record t : Type := mk {
  version : string;
  downloads : option (list JsrDownloadPoint.t)
}.
End JsrVersionDownloads.

Module JsrDownloads.
Record t : Type := mk {
  total : option (list JsrDownloadPoint.t);
  recentVersions : option (list JsrVersionDownloads.t)
}.
End JsrDownloads.

Module DownloadSummary.
Record t : Type := mk {
  totalDownloads : Z;
  recentDownloads : Z;
  latestVersion : string;
  latestVersionDownloads : Z;
  activityEntries : Z;
  lastActivity : option string;
  last7DaysAverage : Z;
  weeklyAverage : Z;
  monthlyAverage : Z;
  weeklySums : list Z;
  monthlySums : list Z;
  error : option string
}.
End DownloadSummary.

(** ** Time-series aggregator: the [try] block of
    [getPackageDownloadSummary] once the series has arrived *)

(** [a.reduce((sum, entry) => sum + entry.count, 0)] *)
Definition reduce_count (a : list JsrDownloadPoint.t) : Z :=
  fold_left (fun sum entry => sum + JsrDownloadPoint.count entry) a 0.

(** The values [0, 1, ..., n-1] taken by the counter of
    [for (let i = 0; i < n; i++)]. *)
Definition loop_range (n : nat) : list Z := map Z.of_nat (seq 0 n).

(** Body of the weekly loop. *)
Definition weekStep (totalData : list JsrDownloadPoint.t)
    (weeklySums : list Z) (i : Z) : list Z :=
  let weekStart := Z.of_nat (List.length totalData) - 7 - (i * 7) in
  let weekEnd := Z.of_nat (List.length totalData) - (i * 7) in
  if weekStart >=? 0 then
    let weekData := slice totalData (Z.max 0 weekStart) (Some weekEnd) in
    let weekTotal := reduce_count weekData in
    unshift weekTotal weeklySums
  else weeklySums.

(** Body of the monthly loop. *)
Definition monthStep (totalData : list JsrDownloadPoint.t)
    (monthlySums : list Z) (i : Z) : list Z :=
  let monthStart := Z.of_nat (List.length totalData) - 30 - (i * 30) in
  let monthEnd := Z.of_nat (List.length totalData) - (i * 30) in
  if monthStart >=? 0 then
    let monthData := slice totalData (Z.max 0 monthStart) (Some monthEnd) in
    let monthTotal := reduce_count monthData in
    unshift monthTotal monthlySums
  else monthlySums.

Definition summaryOfDownloads (downloads : JsrDownloads.t) : DownloadSummary.t :=
  let totalDownloads :=
    or_num (option_map reduce_count (JsrDownloads.total downloads)) 0 in
  let recentActivity :=
    or_empty (option_map (fun total => slice total (-30) None)
                (JsrDownloads.total downloads)) in
  let recentDownloads := reduce_count recentActivity in
  let totalData := or_empty (JsrDownloads.total downloads) in
  let last7Days := slice totalData (-7) None in
  let last7DaysTotal := reduce_count last7Days in
  let last7DaysAverage :=
    if Z.of_nat (List.length last7Days) >? 0
    then Math_round (Number_div last7DaysTotal (Z.of_nat (List.length last7Days)))
    else 0 in
  let totalEntries := or_num (Some (Z.of_nat (List.length totalData))) 0 in
  let dailyAverage :=
    if totalEntries >? 0
    then Math_round (Number_div totalDownloads totalEntries)
    else 0 in
  let weeklyAverage := Math_round (Number_mul dailyAverage 7) in
  let monthlyAverage := Math_round (Number_mul dailyAverage 30) in
  let weeklySums := fold_left (weekStep totalData) (loop_range 4) [] in
  let monthlySums := fold_left (monthStep totalData) (loop_range 6) [] in
  let latestVersion :=
    match JsrDownloads.recentVersions downloads with
    | Some rv => nth_error rv 0
    | None => None
    end in
  let latestVersionDownloads :=
    or_num
      match latestVersion with
      | Some v => option_map reduce_count (JsrVersionDownloads.downloads v)
      | None => None
      end 0 in
  {| DownloadSummary.totalDownloads := totalDownloads;
     DownloadSummary.recentDownloads := recentDownloads;
     DownloadSummary.latestVersion :=
       or_str (option_map JsrVersionDownloads.version latestVersion) "Unknown";
     DownloadSummary.latestVersionDownloads := latestVersionDownloads;
     DownloadSummary.activityEntries := Z.of_nat (List.length recentActivity);
     DownloadSummary.lastActivity :=
       or_undefined (option_map JsrDownloadPoint.timeBucket (last_elt recentActivity));
     DownloadSummary.last7DaysAverage := last7DaysAverage;
     DownloadSummary.weeklyAverage := weeklyAverage;
     DownloadSummary.monthlyAverage := monthlyAverage;
     DownloadSummary.weeklySums := weeklySums;
     DownloadSummary.monthlySums := monthlySums;
     DownloadSummary.error := None |}.

(** ** Thrown values and outcomes *)

Module JsError.
(** The [Response] carried by an error of the search client; [text] is
    [None] when [response.text()] rejects. *)
Record HttpResponse : Type := mkResponse {
  status : Z;
  statusText : string;
  text : option string
}.

(** A thrown value: an [Error] (with its [message] and, when the key is
    present, its [httpResponse]), or anything else, given by its
    [String()] image. *)
Inductive t : Type :=
| Error (message : string) (httpResponse : option HttpResponse)
| Other (image : string).
End JsError.

Definition getErrorMessage (error : JsError.t) : string :=
  match error with
  | JsError.Error message _ => message
  | JsError.Other image => image
  end.

Inductive outcome (A : Type) : Type :=
| Returned (a : A)
| Thrown (e : JsError.t).
Arguments Returned {A} a.
Arguments Thrown {A} e.

(** ** Search documents, options and results *)

(** The fields of a package document that the modelled code reads; the
    others travel with the document untouched. *)
Module PackageInfo.
Record t : Type := mk {
  id : string;
  name : string;
  scope : string;
  description : string;
  score : option Q;
  runtimeCompat : option (list (string * bool));
  latestVersion : option string;
  versionCount : option Z;
  updatedAt : option string;
  latest : option string
}.
End PackageInfo.

Module OramaHit.
Record t : Type := mk { document : PackageInfo.t; score : Q }.
End OramaHit.

Module EnhancedOramaHit.
Record t : Type := mk {
  document : PackageInfo.t;
  score : Q;
  downloads : option DownloadSummary.t
}.
End EnhancedOramaHit.

Module OramaSearchResult.
Record t : Type := mk {
  count : Z;
  hits : option (list OramaHit.t);
  error : option string
}.
End OramaSearchResult.

Inductive Mode : Type := fulltext | vector | hybrid.

(** [Record<string, number>], keys in the order of the literal. *)
Definition Boost : Type := list (string * Q).

(** [OramaSearchOptions & { includeDownloads?: boolean }] *)
Module Options.
Record t : Type := mk {
  limit : field Z;
  offset : field Z;
  mode : field Mode;
  boost : field Boost;
  includeDownloads : field bool
}.
(** [{}] *)
Definition empty : t := mk Absent Absent Absent Absent Absent.
End Options.

(** The object handed to [client.search]; a key holding [undefined] is
    [None].  [includeDownloads] is the extra key that a spread of the
    caller's options may carry along. *)
Module SearchParams.
Record t : Type := mk {
  term : string;
  limit : option Z;
  offset : option Z;
  boost : option Boost;
  mode : option Mode;
  includeDownloads : field bool
}.
End SearchParams.

(** [EnhancedOramaSearchResult & { originalPackage?: PackageInfo }] *)
Module SimilarResult.
Record t : Type := mk {
  hits : list EnhancedOramaHit.t;
  count : Z;
  error : option string;
  originalPackage : option PackageInfo.t
}.
End SimilarResult.

(** ** Requests and the monad of asynchronous code *)

Inductive Call : Type :=
| CallSearch (searchParams : SearchParams.t)
| CallJSRAPI (endpoint : string)
| CallJSRDirect (endpoint : string).

Module Async.
Section WithWorld.
Variable World : Type.

Record St : Type := mkSt { world : World; trace : list Call }.

(** An [async] computation: it runs from a state of the network, and
    either returns or throws; what it did to the network stays done
    in both cases. *)
Definition M (A : Type) : Type := St -> outcome A * St.

Definition ret {A} (a : A) : M A := fun s => (Returned a, s).

Definition throw {A} (e : JsError.t) : M A := fun s => (Thrown e, s).

Definition bind {A B} (c : M A) (k : A -> M B) : M B :=
  fun s =>
    match c s with
    | (Returned a, s') => k a s'
    | (Thrown e, s') => (Thrown e, s')
    end.

(** [try { c } catch (e) { h(e) }] *)
Definition try_catch {A} (c : M A) (h : JsError.t -> M A) : M A :=
  fun s =>
    match c s with
    | (Returned a, s') => (Returned a, s')
    | (Thrown e, s') => h e s'
    end.

(** One request: the world answers, the trace grows. *)
Definition request {A} (c : Call) (answer : World -> outcome A * World) : M A :=
  fun s =>
    let (r, w') := answer (world s) in
    (r, mkSt w' (trace s ++ [c])).

(** [await Promise.all(l.map(f))] for an [async] function [f]: the
    requests start in the order of [l] and the results keep that
    order, whichever answer arrives first.  A rejection rejects the
    whole; the function mapped by this program never rejects. *)
Fixpoint promise_all_map {A B} (f : A -> M B) (l : list A) : M (list B) :=
  match l with
  | [] => ret []
  | x :: xs =>
      bind (f x) (fun y =>
      bind (promise_all_map f xs) (fun ys =>
      ret (y :: ys)))
  end.

(** [for (const x of l) { body }] over a mutable accumulator. *)
Fixpoint for_of {A S} (l : list A) (body : A -> S -> M S) (acc : S) : M S :=
  match l with
  | [] => ret acc
  | x :: xs => bind (body x acc) (for_of xs body)
  end.
End WithWorld.

Arguments mkSt {World} world trace.
Arguments world {World} s.
Arguments trace {World} s.
Arguments ret {World A} a.
Arguments throw {World A} e.
Arguments bind {World A B} c k.
Arguments try_catch {World A} c h.
Arguments request {World A} c answer.
Arguments promise_all_map {World A B} f l.
Arguments for_of {World A S} l body acc.
End Async.

Import Async.

Declare Scope async_scope.
Delimit Scope async_scope with async.
Notation "x <- c ;; k" := (bind c (fun x => k))
  (at level 61, c at next level, right associativity) : async_scope.
#[local] Open Scope async_scope.

(** ** The external services *)

(** The hosted search client ([null] is a possible answer) and the JSON
    endpoints of the registry, at the types at which the code reads
    them.  Each takes the state of the network and gives the next one. *)
Class Services (World : Type) : Type := {
  client_search :
    SearchParams.t -> World -> outcome (option OramaSearchResult.t) * World;
  fetch_api_downloads : string -> World -> outcome JsrDownloads.t * World;
  fetch_api_package : string -> World -> outcome PackageInfo.t * World;
  fetch_direct_package : string -> World -> outcome PackageInfo.t * World
}.

(** ** [common.ts] *)

Section Common.

Context {World : Type} {Sv : Services World}.

Abbreviation M := (Async.M World).

Definition search_failed (error : string) : OramaSearchResult.t :=
  {| OramaSearchResult.count := 0;
     OramaSearchResult.hits := Some [];
     OramaSearchResult.error := Some error |}.

Definition http_line (response : JsError.HttpResponse) : string :=
  "HTTP " ++ String_of_num (JsError.status response) ++ ": "
    ++ JsError.statusText response.

Definition or_mode (x : option Mode) (d : Mode) : Mode :=
  match x with
  | Some m => m
  | None => d
  end.

Definition queryOrama_params (query : string) (options : Options.t)
    : SearchParams.t :=
  {| SearchParams.term := query;
     SearchParams.limit :=
       get (spread (Val (or_num (get (Options.limit options)) 20))
                   (Options.limit options));
     SearchParams.offset :=
       get (spread (Val (or_num (get (Options.offset options)) 0))
                   (Options.offset options));
     SearchParams.boost :=
       get (spread (Val [("id", 3); ("scope", 2); ("name", 1);
                         ("description", 0.5)]%Q)
                   (Options.boost options));
     SearchParams.mode :=
       get (spread (Val (or_mode (get (Options.mode options)) fulltext))
                   (Options.mode options));
     SearchParams.includeDownloads := Options.includeDownloads options |}.

Definition queryOrama (query : string) (options : Options.t)
    : M OramaSearchResult.t :=
  let searchParams := queryOrama_params query options in
  try_catch
    (res <- request (CallSearch searchParams) (client_search searchParams) ;;
     match res with
     | None => ret (search_failed "Search failed: received null response")
     | Some res => ret res
     end)
    (fun error =>
       match error with
       | JsError.Error _ (Some response) =>
           let errorBody :=
             match JsError.text response with
             | Some text => or_str (Some text) (http_line response)
             | None => http_line response
             end in
           ret (search_failed ("Orama API error: " ++ errorBody))
       | _ =>
           ret (search_failed ("Search failed: " ++ getErrorMessage error))
       end).

Definition fetchJSRAPI_downloads (endpoint : string) : M JsrDownloads.t :=
  request (CallJSRAPI endpoint) (fetch_api_downloads endpoint).

Definition fetchJSRAPI_package (endpoint : string) : M PackageInfo.t :=
  request (CallJSRAPI endpoint) (fetch_api_package endpoint).

Definition fetchJSRDirect (endpoint : string) : M PackageInfo.t :=
  request (CallJSRDirect endpoint) (fetch_direct_package endpoint).

Definition getPackageDetails (scope packageName : string) : M PackageInfo.t :=
  fetchJSRAPI_package ("/scopes/" ++ scope ++ "/packages/" ++ packageName).

Definition getPackageInfoDirect (scope packageName : string) : M PackageInfo.t :=
  try_catch
    (fetchJSRDirect ("/@" ++ scope ++ "/" ++ packageName ++ "/meta.json"))
    (fun _error => getPackageDetails scope packageName).

Definition getPackageDownloads (scope packageName : string) : M JsrDownloads.t :=
  fetchJSRAPI_downloads
    ("/scopes/" ++ scope ++ "/packages/" ++ packageName ++ "/downloads").

(** The summary built by the [catch] block. *)
Definition failedSummary (_error : JsError.t) : DownloadSummary.t :=
  {| DownloadSummary.error := Some (getErrorMessage _error);
     DownloadSummary.totalDownloads := 0;
     DownloadSummary.recentDownloads := 0;
     DownloadSummary.latestVersion := "Unknown";
     DownloadSummary.latestVersionDownloads := 0;
     DownloadSummary.activityEntries := 0;
     DownloadSummary.lastActivity := None;
     DownloadSummary.last7DaysAverage := 0;
     DownloadSummary.weeklyAverage := 0;
     DownloadSummary.monthlyAverage := 0;
     DownloadSummary.weeklySums := [];
     DownloadSummary.monthlySums := [] |}.

Definition getPackageDownloadSummary (scope packageName : string)
    : M DownloadSummary.t :=
  try_catch
    (downloads <- getPackageDownloads scope packageName ;;
     ret (summaryOfDownloads downloads))
    (fun _error => ret (failedSummary _error)).

(** [{ ...hit, downloads }] *)
Definition with_downloads (hit : OramaHit.t) (downloads : option DownloadSummary.t)
    : EnhancedOramaHit.t :=
  {| EnhancedOramaHit.document := OramaHit.document hit;
     EnhancedOramaHit.score := OramaHit.score hit;
     EnhancedOramaHit.downloads := downloads |}.

(** The [async] arrow mapped over the hits. *)
Definition enhanceHit (hit : OramaHit.t) : M EnhancedOramaHit.t :=
  try_catch
    (downloads <- getPackageDownloadSummary
                    (PackageInfo.scope (OramaHit.document hit))
                    (PackageInfo.name (OramaHit.document hit)) ;;
     ret (with_downloads hit
            (if truthy_opt_str (DownloadSummary.error downloads)
             then None else Some downloads)))
    (fun _error => ret (with_downloads hit None)).

(** [includeDownloads !== false] *)
Definition not_false (x : option bool) : bool :=
  match x with
  | Some false => false
  | _ => true
  end.

(** The options of the first, resolving search. *)
Definition resolveOptions : Options.t :=
  {| Options.limit := Val 1;
     Options.offset := Absent;
     Options.mode := Absent;
     Options.boost := Val [("name", 5); ("scope", 3); ("id", 2)]%Q;
     Options.includeDownloads := Absent |}.

(** The options of the second search:
    [{ limit: (options.limit || 10) + 1, boost: {...}, ...options }]. *)
Definition similarOptions (options : Options.t) : Options.t :=
  {| Options.limit :=
       spread (Val (or_num (get (Options.limit options)) 10 + 1))
              (Options.limit options);
     Options.boost :=
       spread (Val [("description", 2.5); ("name", 1.8); ("scope", 1.0);
                    ("id", 0.2)]%Q)
              (Options.boost options);
     Options.offset := Options.offset options;
     Options.mode := Options.mode options;
     Options.includeDownloads := Options.includeDownloads options |}.

Definition searchQueryOf (pkg : PackageInfo.t) : string :=
  trim (PackageInfo.name pkg ++ " " ++ PackageInfo.description pkg).

(** [similarResults?.hits?.filter(hit => hit.document.id !== pkg.id) || []] *)
Definition filterOriginal (pkg : PackageInfo.t) (similarResults : OramaSearchResult.t)
    : list OramaHit.t :=
  match OramaSearchResult.hits similarResults with
  | Some hits =>
      filter (fun hit => negb (PackageInfo.id (OramaHit.document hit)
                                 =? PackageInfo.id pkg)%string) hits
  | None => []
  end.

(** [filtered.slice(0, options.limit || 10)] *)
Definition limitResults (options : Options.t) (filtered : list OramaHit.t)
    : list OramaHit.t :=
  slice filtered 0 (Some (or_num (get (Options.limit options)) 10)).

Definition findSimilarPackages (packageName : string) (options : Options.t)
    : M SimilarResult.t :=
  let includeDownloads := not_false (get (Options.includeDownloads options)) in
  packageResult <- queryOrama packageName resolveOptions ;;
  match OramaSearchResult.hits packageResult with
  | None | Some [] =>
      ret {| SimilarResult.hits := [];
             SimilarResult.count := 0;
             SimilarResult.error := Some "Package not found";
             SimilarResult.originalPackage := None |}
  | Some (hit0 :: _) =>
      let pkg := OramaHit.document hit0 in
      let searchQuery := searchQueryOf pkg in
      similarResults <- queryOrama searchQuery (similarOptions options) ;;
      let filtered := filterOriginal pkg similarResults in
      let limitedResults := limitResults options filtered in
      enhancedHits <-
        (if includeDownloads
         then promise_all_map enhanceHit limitedResults
         else ret (map (fun hit => with_downloads hit None) limitedResults)) ;;
      ret {| SimilarResult.hits := enhancedHits;
             SimilarResult.count := Z.of_nat (List.length enhancedHits);
             SimilarResult.error := None;
             SimilarResult.originalPackage := Some pkg |}
  end.

End Common.

(** ** [mcp.ts]: the [compare] tool *)

(** An element of [packageDetails]. *)
Module ComparedPackage.
Record t : Type := mk {
  id : string;
  name : option string;
  scope : option string;
  description : option string;
  runtimeCompat : option (list (string * bool));
  score : option Q;
  latestVersion : option string;
  recentDownloads : option Z;
  totalDownloads : option Z;
  updatedAt : option string;
  versionCount : option Z;
  found : bool;
  fallback : option bool;
  error : option string
}.
End ComparedPackage.

Module CompareMeta.
Record t : Type := mk {
  comparedPackages : list string;
  foundPackages : list ComparedPackage.t;
  notFoundPackages : list ComparedPackage.t
}.
End CompareMeta.

Module ToolResult.
Record t : Type := mk {
  text : string;
  meta : option CompareMeta.t;
  isError : bool
}.
End ToolResult.

(** *** [pkgName.match(/^@?([^/]+)\/(.+)$/)] *)

(** Splits at the first ["/"]: what [[^/]+] can cover, and the rest. *)
Fixpoint split_slash (s : string) : option (string * string) :=
  match s with
  | EmptyString => None
  | String c s' =>
      if Ascii.eqb c "/" then Some (EmptyString, s')
      else
        match split_slash s' with
        | Some (a, b) => Some (String c a, b)
        | None => None
        end
  end.

(** A line terminator, which [.] refuses: LF, CR, and the UTF-8 images
    of U+2028 and U+2029. *)
Fixpoint has_line_terminator (s : string) : bool :=
  match s with
  | EmptyString => false
  | String c s' =>
      if Ascii.eqb c "010" || Ascii.eqb c "013" then true
      else
        match c, s' with
        | "226"%char, String "128"%char (String c3 _) =>
            if Ascii.eqb c3 "168" || Ascii.eqb c3 "169" then true
            else has_line_terminator s'
        | _, _ => has_line_terminator s'
        end
  end.

(** [([^/]+)\/(.+)$] matched from the first character of [s]. *)
Definition match_scope_name (s : string) : option (string * string) :=
  match split_slash s with
  | Some (scope, name) =>
      if truthy_str scope && truthy_str name && negb (has_line_terminator name)
      then Some (scope, name)
      else None
  | None => None
  end.

(** [@?] takes a leading ["@"] when the rest still matches, and gives it
    back otherwise. *)
Definition match_pkgName (pkgName : string) : option (string * string) :=
  match pkgName with
  | String "@"%char rest =>
      match match_scope_name rest with
      | Some m => Some m
      | None => match_scope_name pkgName
      end
  | _ => match_scope_name pkgName
  end.

Section Mcp.

Context {World : Type} {Sv : Services World}.

(** [format.ts] is a collaborator of the tool: the text it renders. *)
Variable formatPackageComparison :
  list ComparedPackage.t -> list ComparedPackage.t -> string.

Abbreviation M := (Async.M World).

Definition notFoundEntry (pkgName error : string) : ComparedPackage.t :=
  {| ComparedPackage.id := pkgName;
     ComparedPackage.name := None;
     ComparedPackage.scope := None;
     ComparedPackage.description := None;
     ComparedPackage.runtimeCompat := None;
     ComparedPackage.score := None;
     ComparedPackage.latestVersion := None;
     ComparedPackage.recentDownloads := None;
     ComparedPackage.totalDownloads := None;
     ComparedPackage.updatedAt := None;
     ComparedPackage.versionCount := None;
     ComparedPackage.found := false;
     ComparedPackage.fallback := None;
     ComparedPackage.error := Some error |}.

Definition exactEntry (scope name : string) (pkg details : PackageInfo.t)
    (downloadSummary : DownloadSummary.t) : ComparedPackage.t :=
  {| ComparedPackage.id := "@" ++ scope ++ "/" ++ name;
     ComparedPackage.name := Some name;
     ComparedPackage.scope := Some scope;
     ComparedPackage.description := Some (PackageInfo.description details);
     ComparedPackage.runtimeCompat := PackageInfo.runtimeCompat details;
     ComparedPackage.score := PackageInfo.score details;
     ComparedPackage.latestVersion := PackageInfo.latest pkg;
     ComparedPackage.recentDownloads :=
       Some (DownloadSummary.recentDownloads downloadSummary);
     ComparedPackage.totalDownloads :=
       Some (DownloadSummary.totalDownloads downloadSummary);
     ComparedPackage.updatedAt := PackageInfo.updatedAt details;
     ComparedPackage.versionCount := PackageInfo.versionCount details;
     ComparedPackage.found := true;
     ComparedPackage.fallback := None;
     ComparedPackage.error := None |}.

Definition fallbackEntry (pkg : PackageInfo.t) : ComparedPackage.t :=
  {| ComparedPackage.id := PackageInfo.id pkg;
     ComparedPackage.name := Some (PackageInfo.name pkg);
     ComparedPackage.scope := Some (PackageInfo.scope pkg);
     ComparedPackage.description := Some (PackageInfo.description pkg);
     ComparedPackage.runtimeCompat := PackageInfo.runtimeCompat pkg;
     ComparedPackage.score := PackageInfo.score pkg;
     ComparedPackage.latestVersion := None;
     ComparedPackage.recentDownloads := None;
     ComparedPackage.totalDownloads := None;
     ComparedPackage.updatedAt := None;
     ComparedPackage.versionCount := None;
     ComparedPackage.found := true;
     ComparedPackage.fallback := Some true;
     ComparedPackage.error := None |}.

(** The options of the fallback search. *)
Definition fallbackOptions : Options.t :=
  {| Options.limit := Val 1;
     Options.offset := Absent;
     Options.mode := Val fulltext;
     Options.boost := Val [("name", 10); ("id", 8); ("scope", 5)]%Q;
     Options.includeDownloads := Absent |}.

(** [searchResult.hits?.[0]] *)
Definition firstHit (searchResult : OramaSearchResult.t) : option OramaHit.t :=
  match OramaSearchResult.hits searchResult with
  | Some hits => nth_error hits 0
  | None => None
  end.

(** The exact lookup: the inner [try] block. *)
Definition exactLookup (scope name : string) : M ComparedPackage.t :=
  pkg <- getPackageInfoDirect scope name ;;
  details <- getPackageDetails scope name ;;
  downloadSummary <- getPackageDownloadSummary scope name ;;
  ret (exactEntry scope name pkg details downloadSummary).

(** The fallback: the inner [catch] block. *)
Definition searchFallback (pkgName : string) : M ComparedPackage.t :=
  searchResult <- queryOrama pkgName fallbackOptions ;;
  match firstHit searchResult with
  | Some hit => ret (fallbackEntry (OramaHit.document hit))
  | None => ret (notFoundEntry pkgName "Package not found")
  end.

(** One turn of [for (const pkgName of packages)]; every branch ends by
    pushing one entry. *)
Definition compareStep (pkgName : string) (packageDetails : list ComparedPackage.t)
    : M (list ComparedPackage.t) :=
  try_catch
    (match match_pkgName pkgName with
     | None =>
         ret (packageDetails ++
              [notFoundEntry pkgName
                 "Invalid package format. Use @scope/name or scope/name"])
     | Some (scope, name) =>
         entry <- try_catch (exactLookup scope name)
                    (fun _directError => searchFallback pkgName) ;;
         ret (packageDetails ++ [entry])
     end)
    (fun error =>
       ret (packageDetails ++ [notFoundEntry pkgName (getErrorMessage error)])).

(** The handler registered as ["compare"]. *)
Definition compare (packages : list string) : M ToolResult.t :=
  try_catch
    (packageDetails <- for_of packages compareStep [] ;;
     let foundPackages := filter ComparedPackage.found packageDetails in
     let notFound :=
       filter (fun pkg => negb (ComparedPackage.found pkg)) packageDetails in
     let comparison := formatPackageComparison foundPackages notFound in
     ret {| ToolResult.text := comparison;
            ToolResult.meta :=
              Some {| CompareMeta.comparedPackages := packages;
                      CompareMeta.foundPackages := foundPackages;
                      CompareMeta.notFoundPackages := notFound |};
            ToolResult.isError := false |})
    (fun error =>
       ret {| ToolResult.text :=
                "Error comparing packages: " ++ getErrorMessage error;
              ToolResult.meta := None;
              ToolResult.isError := true |}).

End Mcp.

(** ** [common.ts]: the other search entry points *)

Module SearchCapabilities.
Record t : Type := mk {
  query : string;
  success : bool;
  count : Z;
  sample : option string;
  mode : string
}.
End SearchCapabilities.

Section Search.

Context {World : Type} {Sv : Services World}.

(** [{ ...options, mode: "fulltext", limit: options.limit || 10,
      boost: {...} }] *)
Definition relevanceOptions (options : Options.t) : Options.t :=
  {| Options.offset := Options.offset options;
     Options.includeDownloads := Options.includeDownloads options;
     Options.mode := Val fulltext;
     Options.limit := Val (or_num (get (Options.limit options)) 10);
     Options.boost :=
       Val [("description", 2.0); ("name", 1.5); ("scope", 0.8);
            ("id", 0.3)]%Q |}.

Definition relevanceSearch (query : string) (options : Options.t)
    : Async.M World OramaSearchResult.t :=
  queryOrama query (relevanceOptions options).

(** [{ limit: 2 }] *)
Definition capabilitiesOptions : Options.t :=
  {| Options.limit := Val 2;
     Options.offset := Absent;
     Options.mode := Absent;
     Options.boost := Absent;
     Options.includeDownloads := Absent |}.

Definition getSearchCapabilities : Async.M World SearchCapabilities.t :=
  let testQuery := "http" in
  result <- queryOrama testQuery capabilitiesOptions ;;
  ret {| SearchCapabilities.query := testQuery;
         SearchCapabilities.success := true;
         SearchCapabilities.count :=
           or_num (option_map (fun hits => Z.of_nat (List.length hits))
                     (OramaSearchResult.hits result)) 0;
         SearchCapabilities.sample :=
           or_undefined
             (option_map (fun hit => PackageInfo.name (OramaHit.document hit))
                (firstHit result));
         SearchCapabilities.mode := "fulltext" |}.

End Search.

(** ** [common.ts]: requests that read the HTTP response *)

(** The two origins of the registry. *)
Inductive Base : Type := JSR_API_BASE | JSR_WEB_BASE.

(** What the code reads of a [Response]; [text] is the outcome of
    [response.text()]. *)
Module Response.
Record t : Type := mk {
  ok : bool;
  status : Z;
  statusText : string;
  text : outcome string
}.
End Response.

(** [fetch] of the URL [base ++ path]: it resolves with a response,
    whatever its status, or rejects. *)
Class Web (World : Type) : Type := {
  fetch : Base -> string -> World -> outcome Response.t * World
}.

Section Files.

Context {World : Type} {Wb : Web World}.

(** The request as the trace records it. *)
Definition call_of (base : Base) (path : string) : Call :=
  match base with
  | JSR_API_BASE => CallJSRAPI path
  | JSR_WEB_BASE => CallJSRDirect path
  end.

(** [fetchWrapper(`${base}${path}`)]; the two request headers it adds
    do not appear in the model. *)
Definition fetchWrapper (base : Base) (path : string) : Async.M World Response.t :=
  response <- request (call_of base path) (fetch base path) ;;
  if negb (Response.ok response)
  then throw (JsError.Error
                ("HTTP error! status: " ++ String_of_num (Response.status response))
                None)
  else ret response.

(** [return response.text()] at the end of an [async] function. *)
Definition response_text (response : Response.t) : Async.M World string :=
  match Response.text response with
  | Returned text => ret text
  | Thrown e => throw e
  end.

Definition getPackageFile (scope packageName version filePath : string)
    : Async.M World string :=
  response <- fetchWrapper JSR_WEB_BASE
                ("/@" ++ scope ++ "/" ++ packageName ++ "/" ++ version ++ "/"
                   ++ filePath) ;;
  if negb (Response.ok response)
  then throw (JsError.Error
                ("File not found: " ++ String_of_num (Response.status response)
                   ++ " " ++ Response.statusText response)
                None)
  else response_text response.

Definition packageExists (scope packageName : string) : Async.M World bool :=
  try_catch
    (response <- fetchWrapper JSR_WEB_BASE
                   ("/@" ++ scope ++ "/" ++ packageName ++ "/meta.json") ;;
     ret (Response.ok response))
    (fun _ => ret false).

End Files.

(** ** [mcp.ts]: the [find_similar] tool *)

(** An element of [similarPackages]. *)
Module SimilarPackage.
Record t : Type := mk {
  id : string;
  name : string;
  scope : string;
  description : string;
  score : Q;
  runtimeCompat : option (list (string * bool));
  updatedAt : option string;
  latestVersion : string;
  totalDownloads : Z;
  recentDownloads : Z
}.
End SimilarPackage.

Module FindSimilarMeta.
Record t : Type := mk {
  originalPackage : option PackageInfo.t;
  similarPackages : list SimilarPackage.t;
  totalResults : Z
}.
End FindSimilarMeta.

Module FindSimilarResult.
Record t : Type := mk {
  text : string;
  meta : option FindSimilarMeta.t;
  isError : bool
}.
End FindSimilarResult.

(** The double-quote character of the message templates. *)
Definition dquote : string := String (Ascii.ascii_of_nat 34) EmptyString.

Section FindSimilarTool.

Context {World : Type} {Sv : Services World}.

(** [format.ts] is a collaborator of the tool: the text it renders. *)
Variable formatSimilarPackages :
  option PackageInfo.t -> list SimilarPackage.t -> string.

(** The arrow mapped over [results.hits]. *)
Definition toSimilarPackage (hit : EnhancedOramaHit.t) : SimilarPackage.t :=
  let pkg := EnhancedOramaHit.document hit in
  let downloads := EnhancedOramaHit.downloads hit in
  {| SimilarPackage.id := PackageInfo.id pkg;
     SimilarPackage.name := PackageInfo.name pkg;
     SimilarPackage.scope := PackageInfo.scope pkg;
     SimilarPackage.description := PackageInfo.description pkg;
     SimilarPackage.score := EnhancedOramaHit.score hit;
     SimilarPackage.runtimeCompat := PackageInfo.runtimeCompat pkg;
     SimilarPackage.updatedAt := PackageInfo.updatedAt pkg;
     SimilarPackage.latestVersion :=
       or_str (PackageInfo.latestVersion pkg)
         (or_str (option_map DownloadSummary.latestVersion downloads) "Unknown");
     SimilarPackage.totalDownloads :=
       or_num (option_map DownloadSummary.totalDownloads downloads) 0;
     SimilarPackage.recentDownloads :=
       or_num (option_map DownloadSummary.recentDownloads downloads) 0 |}.

(** [{ limit }] *)
Definition toolOptions (limit : Z) : Options.t :=
  {| Options.limit := Val limit;
     Options.offset := Absent;
     Options.mode := Absent;
     Options.boost := Absent;
     Options.includeDownloads := Absent |}.

(** The handler registered as ["find_similar"]; [limit] arrives with its
    default already filled in by the schema. *)
Definition find_similar (packageName : string) (limit : Z)
    : Async.M World FindSimilarResult.t :=
  try_catch
    (results <- findSimilarPackages packageName (toolOptions limit) ;;
     if truthy_opt_str (SimilarResult.error results)
     then
       ret {| FindSimilarResult.text :=
                "Package " ++ dquote ++ packageName ++ dquote
                  ++ " not found in JSR registry.";
              FindSimilarResult.meta := None;
              FindSimilarResult.isError := true |}
     else
       let originalPkg := SimilarResult.originalPackage results in
       let similarPackages := map toSimilarPackage (SimilarResult.hits results) in
       let summary := formatSimilarPackages originalPkg similarPackages in
       ret {| FindSimilarResult.text := summary;
              FindSimilarResult.meta :=
                Some {| FindSimilarMeta.originalPackage := originalPkg;
                        FindSimilarMeta.similarPackages := similarPackages;
                        FindSimilarMeta.totalResults :=
                          Z.of_nat (List.length similarPackages) |};
              FindSimilarResult.isError := false |})
    (fun error =>
       ret {| FindSimilarResult.text :=
                "Error finding similar packages to " ++ dquote ++ packageName
                  ++ dquote ++ ": " ++ getErrorMessage error;
              FindSimilarResult.meta := None;
              FindSimilarResult.isError := true |}).

End FindSimilarTool.

(** ** [mcp.ts]: the [package_details] and [package_downloads] tools *)

(** The answer of a tool: its text, its [meta] when it has one, and
    whether it is an error. *)
Module ToolAnswer.
Record t (Meta : Type) : Type := mk {
  text : string;
  meta : option Meta;
  isError : bool
}.
Arguments mk {Meta} text meta isError.
Arguments text {Meta} t.
Arguments meta {Meta} t.
Arguments isError {Meta} t.
End ToolAnswer.

Module DetailsMeta.
Record t : Type := mk {
  package : PackageInfo.t;
  downloadSummary : DownloadSummary.t;
  metadata : PackageInfo.t
}.
End DetailsMeta.

Module DownloadsMeta.
Record t : Type := mk {
  scope : string;
  packageName : string;
  summary : DownloadSummary.t
}.
End DownloadsMeta.

(** [scope.startsWith("@") ? scope.slice(1) : scope] *)
Definition stripAt (scope : string) : string :=
  match scope with
  | String "@"%char rest => rest
  | _ => scope
  end.

Section RegistryTools.

Context {World : Type} {Sv : Services World}.

(** [format.ts] is a collaborator of the tools: the texts it renders. *)
Variable formatPackageDetails :
  PackageInfo.t -> DownloadSummary.t -> PackageInfo.t -> string.
Variable formatPackageDownloads :
  string -> string -> DownloadSummary.t -> string.

(** The handler registered as ["package_details"]. *)
Definition package_details (scope packageName : string)
    : Async.M World (ToolAnswer.t DetailsMeta.t) :=
  try_catch
    (let scopeName := stripAt scope in
     pkg <- getPackageDetails scopeName packageName ;;
     downloadSummary <- getPackageDownloadSummary scopeName packageName ;;
     meta <- getPackageInfoDirect scopeName packageName ;;
     let details := formatPackageDetails pkg downloadSummary meta in
     ret {| ToolAnswer.text := details;
            ToolAnswer.meta :=
              Some {| DetailsMeta.package := pkg;
                      DetailsMeta.downloadSummary := downloadSummary;
                      DetailsMeta.metadata := meta |};
            ToolAnswer.isError := false |})
    (fun error =>
       ret {| ToolAnswer.text :=
                "Error fetching details for @" ++ scope ++ "/" ++ packageName
                  ++ ": " ++ getErrorMessage error;
              ToolAnswer.meta := None;
              ToolAnswer.isError := true |}).

(** The handler registered as ["package_downloads"]. *)
Definition package_downloads (scope packageName : string)
    : Async.M World (ToolAnswer.t DownloadsMeta.t) :=
  try_catch
    (let scopeName := stripAt scope in
     summary <- getPackageDownloadSummary scopeName packageName ;;
     let report := formatPackageDownloads scopeName packageName summary in
     ret {| ToolAnswer.text := report;
            ToolAnswer.meta :=
              Some {| DownloadsMeta.scope := scopeName;
                      DownloadsMeta.packageName := packageName;
                      DownloadsMeta.summary := summary |};
            ToolAnswer.isError := false |})
    (fun error =>
       ret {| ToolAnswer.text :=
                "Error fetching download stats for @" ++ scope ++ "/"
                  ++ packageName ++ ": " ++ getErrorMessage error;
              ToolAnswer.meta := None;
              ToolAnswer.isError := true |}).

End RegistryTools.

(** ** Concrete networks *)

Module Demo.

(** A network given by its answers; its state counts the requests. *)
Definition network
    (search : SearchParams.t -> outcome (option OramaSearchResult.t))
    (downloads : string -> outcome JsrDownloads.t)
    (package : string -> outcome PackageInfo.t)
    (direct : string -> outcome PackageInfo.t) : Services nat :=
  {| client_search := fun p w => (search p, S w);
     fetch_api_downloads := fun e w => (downloads e, S w);
     fetch_api_package := fun e w => (package e, S w);
     fetch_direct_package := fun e w => (direct e, S w) |}.

Definition st0 : Async.St nat := Async.mkSt 0%nat [].

Definition doc (scope name description : string) : PackageInfo.t :=
  {| PackageInfo.id := "@" ++ scope ++ "/" ++ name;
     PackageInfo.name := name;
     PackageInfo.scope := scope;
     PackageInfo.description := description;
     PackageInfo.score := None;
     PackageInfo.runtimeCompat := None;
     PackageInfo.latestVersion := Some "1.0.0";
     PackageInfo.versionCount := Some 3;
     PackageInfo.updatedAt := None;
     PackageInfo.latest := Some "1.0.0" |}.

Definition http : PackageInfo.t := doc "std" "http" "HTTP utilities".
Definition oak : PackageInfo.t := doc "oak" "oak" "HTTP middleware framework".
Definition hono : PackageInfo.t := doc "hono" "hono" "Web framework".
Definition fresh : PackageInfo.t := doc "fresh" "core" "Web framework for Deno".

Definition hit (d : PackageInfo.t) (score : Q) : OramaHit.t :=
  {| OramaHit.document := d; OramaHit.score := score |}.

(** [n] daily points with the counts [1, 2, ..., n]. *)
Definition series (n : nat) : list JsrDownloadPoint.t :=
  map (fun i => JsrDownloadPoint.mk ("day " ++ String_of_num i) (i + 1))
      (loop_range n).

Definition seriesOf (n : nat) : JsrDownloads.t :=
  {| JsrDownloads.total := Some (series n);
     JsrDownloads.recentVersions :=
       Some [ {| JsrVersionDownloads.version := "1.0.0";
                 JsrVersionDownloads.downloads := Some (series 3) |} ] |}.

(** No point in the total series, yet a version with downloads. *)
Definition emptySeries : JsrDownloads.t :=
  {| JsrDownloads.total := Some [];
     JsrDownloads.recentVersions :=
       Some [ {| JsrVersionDownloads.version := "1.2.0";
                 JsrVersionDownloads.downloads := Some (series 2) |} ] |}.

Definition http500 : JsError.t :=
  JsError.Error "HTTP error! status: 500" None.

(** The search ranks the queried package first and honours the limit
    of the request. *)
Definition ranking : list OramaHit.t :=
  [hit http 9.1%Q; hit oak 7.2%Q; hit hono 6.4%Q; hit fresh 3.3%Q].

Definition searchAnswer (p : SearchParams.t) : outcome (option OramaSearchResult.t) :=
  let hits := slice ranking 0 (SearchParams.limit p) in
  Returned (Some {| OramaSearchResult.count := Z.of_nat (List.length hits);
                    OramaSearchResult.hits := Some hits;
                    OramaSearchResult.error := None |}).

(** The download endpoint of [@hono/hono] is down; [@std/http] has 100
    points, every other package 5. *)
Definition downloadsAnswer (endpoint : string) : outcome JsrDownloads.t :=
  if (endpoint =? "/scopes/hono/packages/hono/downloads")%string
  then Thrown http500
  else if (endpoint =? "/scopes/std/packages/http/downloads")%string
  then Returned (seriesOf 100)
  else Returned (seriesOf 5).

Definition packageAnswer (endpoint : string) : outcome PackageInfo.t :=
  Returned http.

(** Every service answers. *)
Definition healthy : Services nat :=
  network searchAnswer downloadsAnswer packageAnswer packageAnswer.

(** The registry serves a series without points. *)
Definition quiet : Services nat :=
  network searchAnswer (fun _ => Returned emptySeries) packageAnswer packageAnswer.

(** The registry is down. *)
Definition registryDown : Services nat :=
  network searchAnswer (fun _ => Thrown http500)
    (fun _ => Thrown http500) (fun _ => Thrown http500).

(** The search backend rejects every request with an HTTP 503. *)
Definition searchDown : Services nat :=
  network
    (fun _ => Thrown (JsError.Error "Request failed"
                        (Some (JsError.mkResponse 503 "Service Unavailable"
                                 (Some "upstream unavailable")))))
    downloadsAnswer packageAnswer packageAnswer.

(** [{ limit: n }] *)
Definition limitOnly (n : Z) : Options.t :=
  {| Options.limit := Val n;
     Options.offset := Absent;
     Options.mode := Absent;
     Options.boost := Absent;
     Options.includeDownloads := Absent |}.

End Demo.

(** ** The windowing policy, in the words of the specification *)

Module Spec.

Definition sum_counts (l : list JsrDownloadPoint.t) : Z :=
  fold_right (fun p acc => JsrDownloadPoint.count p + acc) 0 l.

(** The points of index [a <= j < b]. *)
Definition points (l : list JsrDownloadPoint.t) (a b : Z) : list JsrDownloadPoint.t :=
  firstn (Z.to_nat (b - a)) (skipn (Z.to_nat a) l).

(** Window [i], counted from the most recent one. *)
Definition window (size : Z) (l : list JsrDownloadPoint.t) (i : Z)
    : list JsrDownloadPoint.t :=
  let len := Z.of_nat (List.length l) in
  points l (len - size * (i + 1)) (len - size * i).

(** One sum per window [0 <= i < count] whose start index is not
    negative, the oldest window first. *)
Definition windowSums (size : Z) (count : nat) (l : list JsrDownloadPoint.t)
    : list Z :=
  map (fun i => sum_counts (window size l i))
      (filter (fun i => 0 <=? Z.of_nat (List.length l) - size * (i + 1))
              (rev (loop_range count))).

Definition weeklySums : list JsrDownloadPoint.t -> list Z := windowSums 7 4.

Definition monthlySums : list JsrDownloadPoint.t -> list Z := windowSums 30 6.

End Spec.

(** The two loops of the aggregator, as one loop in the window size. *)
Definition windowStep (size : Z) (totalData : list JsrDownloadPoint.t)
    (sums : list Z) (i : Z) : list Z :=
  let start := Z.of_nat (List.length totalData) - size - (i * size) in
  let stop := Z.of_nat (List.length totalData) - (i * size) in
  if start >=? 0 then
    unshift (reduce_count (slice totalData (Z.max 0 start) (Some stop))) sums
  else sums.

(** A computation only adds requests to the trace. *)
Definition grows {World A} (c : Async.M World A) : Prop :=
  forall s, exists rest, trace (snd (c s)) = trace s ++ rest.

(** The first request of a computation is [x]. *)
Definition starts_with {World A} (x : Call) (c : Async.M World A) : Prop :=
  forall s, exists rest, trace (snd (c s)) = trace s ++ x :: rest.

(** The search hit inside an enhanced hit. *)
Definition hit_of (e : EnhancedOramaHit.t) : OramaHit.t :=
  {| OramaHit.document := EnhancedOramaHit.document e;
     OramaHit.score := EnhancedOramaHit.score e |}.

(** The result returned when the first search resolves nothing. *)
Definition packageNotFound : SimilarResult.t :=
  {| SimilarResult.hits := [];
     SimilarResult.count := 0;
     SimilarResult.error := Some "Package not found";
     SimilarResult.originalPackage := None |}.

(** The sum of a list of integers. *)
Definition sumZ (l : list Z) : Z := fold_right Z.add 0 l.

(** The download request that the enrichment sends for a hit. *)
Definition downloadsCall (hit : OramaHit.t) : Call :=
  CallJSRAPI ("/scopes/" ++ PackageInfo.scope (OramaHit.document hit)
                ++ "/packages/" ++ PackageInfo.name (OramaHit.document hit)
                ++ "/downloads").

(** More concrete networks. *)
Module DemoWeb.

(** The site serves the metadata and one module of [@std/http], and
    answers 404 for anything else. *)
Definition siteAnswer (base : Base) (path : string) : outcome Response.t :=
  if (path =? "/@std/http/meta.json")%string
  then Returned (Response.mk true 200 "OK" (Returned "{}"))
  else if (path =? "/@std/http/1.0.0/mod.ts")%string
  then Returned (Response.mk true 200 "OK" (Returned "export {};"))
  else Returned (Response.mk false 404 "Not Found" (Returned "not found")).

Definition site : Web nat :=
  {| fetch := fun base path w => (siteAnswer base path, S w) |}.

(** The network is unreachable. *)
Definition offline : Web nat :=
  {| fetch := fun base path w =>
       (Thrown (JsError.Error "error sending request" None), S w) |}.

(** [{ limit: n, includeDownloads: false }] *)
Definition withoutDownloads (n : Z) : Options.t :=
  {| Options.limit := Val n;
     Options.offset := Absent;
     Options.mode := Absent;
     Options.boost := Absent;
     Options.includeDownloads := Val false |}.

(** The direct endpoint is down, the API answers. *)
Definition directDown : Services nat :=
  Demo.network Demo.searchAnswer Demo.downloadsAnswer Demo.packageAnswer
    (fun _ => Thrown Demo.http500).



End DemoWeb.

(** * Properties *)

(** ** Lists and slices *)

Lemma reduce_count_from (l : list JsrDownloadPoint.t) (a : Z) :
  fold_left (fun sum entry => sum + JsrDownloadPoint.count entry) l a
  = a + Spec.sum_counts l.
Proof.
  revert a; induction l as [|p l IH]; intros a; simpl.
  - lia.
  - rewrite IH. lia.
Qed.

Lemma reduce_count_sum (l : list JsrDownloadPoint.t) :
  reduce_count l = Spec.sum_counts l.
Proof. unfold reduce_count. rewrite reduce_count_from. lia. Qed.

Lemma slice_points (l : list JsrDownloadPoint.t) (a b : Z) :
  0 <= a <= b -> b <= Z.of_nat (List.length l) ->
  slice l (Z.max 0 a) (Some b) = Spec.points l a b.
Proof.
  intros Hab Hb. unfold slice, Spec.points.
  replace (Z.max 0 a) with a by lia.
  destruct (a <? 0) eqn:Ea; [apply Z.ltb_lt in Ea; lia|].
  destruct (b <? 0) eqn:Eb; [apply Z.ltb_lt in Eb; lia|].
  replace (Z.min a (Z.of_nat (List.length l))) with a by lia.
  replace (Z.min b (Z.of_nat (List.length l))) with b by lia.
  reflexivity.
Qed.

Lemma length_slice_last {A} (l : list A) (n : Z) :
  0 < n ->
  Z.of_nat (List.length (slice l (- n) None))
  = Z.min (Z.of_nat (List.length l)) n.
Proof.
  intros Hn. unfold slice.
  destruct (- n <? 0) eqn:E; [|apply Z.ltb_ge in E; lia].
  rewrite length_firstn, length_skipn. lia.
Qed.

Lemma loop_range_S (n : nat) :
  loop_range (S n) = loop_range n ++ [Z.of_nat n].
Proof. unfold loop_range. rewrite seq_S, map_app. reflexivity. Qed.

Lemma length_loop_range (n : nat) : List.length (loop_range n) = n.
Proof. unfold loop_range. rewrite length_map, length_seq. reflexivity. Qed.

Lemma length_points (l : list JsrDownloadPoint.t) (a b : Z) :
  0 <= a <= b -> b <= Z.of_nat (List.length l) ->
  Z.of_nat (List.length (Spec.points l a b)) = b - a.
Proof.
  intros Hab Hb. unfold Spec.points.
  rewrite length_firstn, length_skipn. lia.
Qed.

(** ** Traces *)

Section Traces.

Context {World : Type}.

Lemma grows_ret {A} (a : A) : grows (World := World) (ret a).
Proof. intros s. exists []. rewrite app_nil_r. reflexivity. Qed.

Lemma grows_request {A} (c : Call) (answer : World -> outcome A * World) :
  grows (request c answer).
Proof.
  intros s. exists [c]. unfold request.
  destruct (answer (world s)); reflexivity.
Qed.

Lemma starts_with_request {A} (c : Call) (answer : World -> outcome A * World) :
  starts_with c (request c answer).
Proof.
  intros s. exists []. unfold request.
  destruct (answer (world s)); reflexivity.
Qed.

Lemma grows_bind {A B} (c : Async.M World A) (k : A -> Async.M World B) :
  grows c -> (forall a, grows (k a)) -> grows (bind c k).
Proof.
  intros Hc Hk s. unfold bind.
  destruct (Hc s) as (r1 & H1).
  destruct (c s) as [[a|e] s1]; cbn [snd] in *.
  - destruct (Hk a s1) as (r2 & H2).
    exists (r1 ++ r2). rewrite H2, H1, app_assoc. reflexivity.
  - exists r1. exact H1.
Qed.

Lemma grows_try_catch {A} (c : Async.M World A) (h : JsError.t -> Async.M World A) :
  grows c -> (forall e, grows (h e)) -> grows (try_catch c h).
Proof.
  intros Hc Hh s. unfold try_catch.
  destruct (Hc s) as (r1 & H1).
  destruct (c s) as [[a|e] s1]; cbn [snd] in *.
  - exists r1. exact H1.
  - destruct (Hh e s1) as (r2 & H2).
    exists (r1 ++ r2). rewrite H2, H1, app_assoc. reflexivity.
Qed.

Lemma starts_with_bind {A B} (x : Call) (c : Async.M World A)
    (k : A -> Async.M World B) :
  starts_with x c -> (forall a, grows (k a)) -> starts_with x (bind c k).
Proof.
  intros Hc Hk s. unfold bind.
  destruct (Hc s) as (r1 & H1).
  destruct (c s) as [[a|e] s1]; cbn [snd] in *.
  - destruct (Hk a s1) as (r2 & H2).
    exists (r1 ++ r2). rewrite H2, H1, <- app_assoc. reflexivity.
  - exists r1. exact H1.
Qed.

Lemma starts_with_try_catch {A} (x : Call) (c : Async.M World A)
    (h : JsError.t -> Async.M World A) :
  starts_with x c -> (forall e, grows (h e)) -> starts_with x (try_catch c h).
Proof.
  intros Hc Hh s. unfold try_catch.
  destruct (Hc s) as (r1 & H1).
  destruct (c s) as [[a|e] s1]; cbn [snd] in *.
  - exists r1. exact H1.
  - destruct (Hh e s1) as (r2 & H2).
    exists (r1 ++ r2). rewrite H2, H1, <- app_assoc. reflexivity.
Qed.

End Traces.

(** ** The window loops *)

Lemma windowStep_spec (size : Z) (l : list JsrDownloadPoint.t) (acc : list Z) (i : Z) :
  0 <= size -> 0 <= i ->
  windowStep size l acc i
  = map (fun i => Spec.sum_counts (Spec.window size l i))
        (filter (fun i => 0 <=? Z.of_nat (List.length l) - size * (i + 1)) [i])
    ++ acc.
Proof.
  intros Hs Hi. unfold windowStep. simpl.
  replace (Z.of_nat (List.length l) - size - i * size)
    with (Z.of_nat (List.length l) - size * (i + 1)) by lia.
  replace (Z.of_nat (List.length l) - i * size)
    with (Z.of_nat (List.length l) - size * i) by lia.
  destruct (Z.of_nat (List.length l) - size * (i + 1) >=? 0) eqn:E.
  - apply Z.geb_le in E.
    replace (0 <=? Z.of_nat (List.length l) - size * (i + 1)) with true
      by (symmetry; apply Z.leb_le; lia).
    simpl. unfold unshift, Spec.window.
    rewrite slice_points by nia.
    rewrite reduce_count_sum. reflexivity.
  - replace (0 <=? Z.of_nat (List.length l) - size * (i + 1)) with false.
    + reflexivity.
    + symmetry. apply Z.leb_gt. rewrite Z.geb_leb in E. apply Z.leb_gt in E. lia.
Qed.

Lemma windowLoop_spec (size : Z) (l : list JsrDownloadPoint.t) (n : nat) :
  0 <= size ->
  forall acc,
    fold_left (windowStep size l) (loop_range n) acc
    = Spec.windowSums size n l ++ acc.
Proof.
  intros Hs. unfold Spec.windowSums. induction n as [|n IH]; intros acc.
  - reflexivity.
  - rewrite loop_range_S, fold_left_app, IH. simpl fold_left.
    rewrite windowStep_spec by lia.
    rewrite rev_app_distr. simpl rev.
    rewrite filter_app, map_app, <- app_assoc. reflexivity.
Qed.

Lemma weekLoop_spec (l : list JsrDownloadPoint.t) :
  fold_left (weekStep l) (loop_range 4) [] = Spec.weeklySums l.
Proof.
  change (weekStep l) with (windowStep 7 l).
  rewrite windowLoop_spec by lia. apply app_nil_r.
Qed.

Lemma monthLoop_spec (l : list JsrDownloadPoint.t) :
  fold_left (monthStep l) (loop_range 6) [] = Spec.monthlySums l.
Proof.
  change (monthStep l) with (windowStep 30 l).
  rewrite windowLoop_spec by lia. apply app_nil_r.
Qed.

(** The windows that start inside the series are the first
    [floor(len / size)] ones. *)
Lemma included_windows (size : Z) (l : list JsrDownloadPoint.t) (n : nat) :
  0 < size ->
  filter (fun i => 0 <=? Z.of_nat (List.length l) - size * (i + 1))
         (rev (loop_range n))
  = rev (loop_range (Nat.min n (Z.to_nat (Z.of_nat (List.length l) / size)))).
Proof.
  intros Hs.
  set (len := Z.of_nat (List.length l)).
  assert (Hlen : 0 <= len) by (unfold len; lia).
  pose proof (Z.div_mod len size ltac:(lia)) as Hdm.
  pose proof (Z.mod_pos_bound len size Hs) as Hmod.
  assert (Hq : 0 <= len / size) by (apply Z.div_pos; lia).
  induction n as [|n IH].
  - reflexivity.
  - rewrite loop_range_S, rev_app_distr. cbn [rev app filter].
    destruct (0 <=? len - size * (Z.of_nat n + 1)) eqn:E.
    + apply Z.leb_le in E.
      assert (Hn : (S n <= Z.to_nat (len / size))%nat) by nia.
      rewrite IH.
      replace (Nat.min n (Z.to_nat (len / size))) with n by lia.
      replace (Nat.min (S n) (Z.to_nat (len / size))) with (S n) by lia.
      rewrite loop_range_S, rev_app_distr. reflexivity.
    + apply Z.leb_gt in E.
      assert (Hn : (Z.to_nat (len / size) <= n)%nat) by nia.
      rewrite IH. f_equal. f_equal. lia.
Qed.

Lemma loop_range_bounds (n : nat) (i : Z) :
  In i (loop_range n) -> 0 <= i < Z.of_nat n.
Proof.
  unfold loop_range. rewrite in_map_iff.
  intros [k [<- Hk]]. apply in_seq in Hk. lia.
Qed.

Lemma full_window (size : Z) (l : list JsrDownloadPoint.t) (i : Z) :
  0 < size -> 0 <= i < Z.of_nat (List.length l) / size ->
  Z.of_nat (List.length (Spec.window size l i)) = size.
Proof.
  intros Hs Hi. unfold Spec.window.
  set (len := Z.of_nat (List.length l)) in *.
  pose proof (Z.div_mod len size ltac:(lia)) as Hdm.
  pose proof (Z.mod_pos_bound len size Hs) as Hmod.
  rewrite length_points; fold len; nia.
Qed.

(** ** The aggregator *)

Section Aggregator.

Context {World : Type} {Sv : Services World}.

(** When the series arrives, the summary is the one the [try] block
    builds from it, and nothing else happens to the network. *)
Lemma summary_of_series (scope name : string) (s s' : Async.St World)
    (d : JsrDownloads.t) :
  getPackageDownloads scope name s = (Returned d, s') ->
  getPackageDownloadSummary scope name s = (Returned (summaryOfDownloads d), s').
Proof.
  intros H. unfold getPackageDownloadSummary, try_catch, bind, ret.
  rewrite H. reflexivity.
Qed.

(** When the fetch fails, the summary is the one of the [catch] block. *)
Lemma summary_of_failure (scope name : string) (s s' : Async.St World)
    (e : JsError.t) :
  getPackageDownloads scope name s = (Thrown e, s') ->
  getPackageDownloadSummary scope name s = (Returned (failedSummary e), s').
Proof.
  intros H. unfold getPackageDownloadSummary, try_catch, bind, ret.
  rewrite H. reflexivity.
Qed.

(** C1. Once the series has arrived, [weeklySums] holds one sum for each
    of the four trailing 7-point windows whose start index
    [len - 7*(i+1)] is not negative, window [i] covering the points
    [len - 7*(i+1) <= j < len - 7*i], the oldest window first; a series
    of 5 points gives the empty list. *)
Theorem weeklySums_trailing_windows (scope name : string)
    (s s' : Async.St World) (d : JsrDownloads.t) :
  getPackageDownloads scope name s = (Returned d, s') ->
  exists summary,
    getPackageDownloadSummary scope name s = (Returned summary, s') /\
    DownloadSummary.weeklySums summary
    = Spec.weeklySums (or_empty (JsrDownloads.total d)) /\
    (List.length (or_empty (JsrDownloads.total d)) = 5%nat ->
     DownloadSummary.weeklySums summary = []).
Proof.
  intros H. exists (summaryOfDownloads d).
  split; [apply summary_of_series; exact H|].
  assert (E : DownloadSummary.weeklySums (summaryOfDownloads d)
              = Spec.weeklySums (or_empty (JsrDownloads.total d)))
    by apply weekLoop_spec.
  split; [exact E|].
  intros H5. rewrite E. unfold Spec.weeklySums, Spec.windowSums.
  rewrite included_windows by lia. rewrite H5. reflexivity.
Qed.

(** C6. Once the series has arrived, [monthlySums] has exactly
    [min(6, floor(len / 30))] elements; they are the sums of the trailing
    30-point windows, the oldest first, and each of these windows holds
    a full 30 points. *)
Theorem monthlySums_bucket_count (scope name : string)
    (s s' : Async.St World) (d : JsrDownloads.t) :
  getPackageDownloads scope name s = (Returned d, s') ->
  exists summary,
    getPackageDownloadSummary scope name s = (Returned summary, s') /\
    let l := or_empty (JsrDownloads.total d) in
    let buckets := Z.min 6 (Z.of_nat (List.length l) / 30) in
    Z.of_nat (List.length (DownloadSummary.monthlySums summary)) = buckets /\
    DownloadSummary.monthlySums summary
    = map (fun i => Spec.sum_counts (Spec.window 30 l i))
          (rev (loop_range (Z.to_nat buckets))) /\
    Forall (fun i => Z.of_nat (List.length (Spec.window 30 l i)) = 30)
           (loop_range (Z.to_nat buckets)).
Proof.
  intros H. exists (summaryOfDownloads d).
  split; [apply summary_of_series; exact H|].
  cbv zeta.
  set (l := or_empty (JsrDownloads.total d)).
  assert (Hq : 0 <= Z.of_nat (List.length l) / 30) by (apply Z.div_pos; lia).
  assert (E : DownloadSummary.monthlySums (summaryOfDownloads d)
              = map (fun i => Spec.sum_counts (Spec.window 30 l i))
                    (rev (loop_range
                       (Z.to_nat (Z.min 6 (Z.of_nat (List.length l) / 30)))))).
  { change (DownloadSummary.monthlySums (summaryOfDownloads d))
      with (fold_left (monthStep l) (loop_range 6) []).
    rewrite monthLoop_spec. unfold Spec.monthlySums, Spec.windowSums.
    rewrite included_windows by lia.
    do 3 f_equal. lia. }
  split; [|split].
  - rewrite E, length_map, length_rev, length_loop_range. lia.
  - exact E.
  - apply Forall_forall. intros i Hi. apply loop_range_bounds in Hi.
    apply full_window; lia.
Qed.

(** C10. Once the series has arrived, [activityEntries] is
    [min(len, 30)]: the number of points of the trailing 30-point
    window, not the number of points of the series. *)
Theorem activityEntries_recent_window (scope name : string)
    (s s' : Async.St World) (d : JsrDownloads.t) :
  getPackageDownloads scope name s = (Returned d, s') ->
  exists summary,
    getPackageDownloadSummary scope name s = (Returned summary, s') /\
    DownloadSummary.activityEntries summary
    = Z.min (Z.of_nat (List.length (or_empty (JsrDownloads.total d)))) 30.
Proof.
  intros H. exists (summaryOfDownloads d).
  split; [apply summary_of_series; exact H|].
  unfold summaryOfDownloads. simpl.
  destruct (JsrDownloads.total d) as [total|]; simpl.
  - apply (length_slice_last total 30). lia.
  - reflexivity.
Qed.

(** C7. [getPackageDownloadSummary] returns in every state of the
    network; when the fetch of the series throws, the summary carries
    the message of the thrown value in [error] and every numeric field
    is zero; otherwise [error] is absent. *)
Theorem getPackageDownloadSummary_never_throws (scope name : string)
    (s : Async.St World) :
  exists summary s',
    getPackageDownloadSummary scope name s = (Returned summary, s') /\
    match fst (getPackageDownloads scope name s) with
    | Thrown e =>
        DownloadSummary.error summary = Some (getErrorMessage e) /\
        DownloadSummary.totalDownloads summary = 0 /\
        DownloadSummary.recentDownloads summary = 0 /\
        DownloadSummary.latestVersionDownloads summary = 0 /\
        DownloadSummary.activityEntries summary = 0 /\
        DownloadSummary.last7DaysAverage summary = 0 /\
        DownloadSummary.weeklyAverage summary = 0 /\
        DownloadSummary.monthlyAverage summary = 0 /\
        DownloadSummary.weeklySums summary = [] /\
        DownloadSummary.monthlySums summary = []
    | Returned _ => DownloadSummary.error summary = None
    end.
Proof.
  destruct (getPackageDownloads scope name s) as [[d|e] s'] eqn:H.
  - exists (summaryOfDownloads d), s'.
    split; [apply summary_of_series; exact H|]. reflexivity.
  - exists (failedSummary e), s'.
    split; [apply summary_of_failure; exact H|].
    simpl. repeat split.
Qed.

(** C2, as the code has it. When the fetch of the series throws, every
    numeric field of the summary is zero, [latestVersion] is
    ["Unknown"] and [error] holds the message. When the series arrives
    without any point, the fields computed from the points are zero or
    empty, but [error] is absent, and [latestVersion] and
    [latestVersionDownloads] still come from the first recent version:
    [latestVersion] is its version string, or ["Unknown"] when there is
    no recent version or that string is empty, and
    [latestVersionDownloads] is the sum of its download counts, 0 when
    there is no recent version or it has no download list. *)
Theorem degraded_summary (scope name : string) (s s' : Async.St World)
    (r : outcome JsrDownloads.t) :
  getPackageDownloads scope name s = (r, s') ->
  match r with
  | Thrown _ => True
  | Returned d => or_empty (JsrDownloads.total d) = []
  end ->
  exists summary,
    getPackageDownloadSummary scope name s = (Returned summary, s') /\
    (DownloadSummary.totalDownloads summary = 0 /\
     DownloadSummary.recentDownloads summary = 0 /\
     DownloadSummary.activityEntries summary = 0 /\
     DownloadSummary.lastActivity summary = None /\
     DownloadSummary.last7DaysAverage summary = 0 /\
     DownloadSummary.weeklyAverage summary = 0 /\
     DownloadSummary.monthlyAverage summary = 0 /\
     DownloadSummary.weeklySums summary = [] /\
     DownloadSummary.monthlySums summary = []) /\
    match r with
    | Thrown e =>
        DownloadSummary.error summary = Some (getErrorMessage e) /\
        DownloadSummary.latestVersion summary = "Unknown" /\
        DownloadSummary.latestVersionDownloads summary = 0
    | Returned d =>
        DownloadSummary.error summary = None /\
        match or_empty (JsrDownloads.recentVersions d) with
        | [] =>
            DownloadSummary.latestVersion summary = "Unknown" /\
            DownloadSummary.latestVersionDownloads summary = 0
        | v :: _ =>
            DownloadSummary.latestVersion summary
            = (if truthy_str (JsrVersionDownloads.version v)
               then JsrVersionDownloads.version v else "Unknown") /\
            DownloadSummary.latestVersionDownloads summary
            = Spec.sum_counts (or_empty (JsrVersionDownloads.downloads v))
        end
    end.
Proof.
  intros H Hempty. destruct r as [d|e].
  - exists (summaryOfDownloads d).
    split; [apply summary_of_series; exact H|].
    split.
    + unfold summaryOfDownloads.
      destruct (JsrDownloads.total d) as [[|p total]|];
        simpl in Hempty; try discriminate; simpl; repeat split.
    + split; [reflexivity|].
      unfold summaryOfDownloads; simpl.
      destruct (JsrDownloads.recentVersions d) as [[|v rv]|]; simpl;
        try (split; reflexivity).
      split; [reflexivity|].
      destruct (JsrVersionDownloads.downloads v) as [dl|]; simpl;
        [|reflexivity].
      rewrite reduce_count_sum.
      destruct (Spec.sum_counts dl =? 0) eqn:E; [|reflexivity].
      apply Z.eqb_eq in E. lia.
  - exists (failedSummary e).
    split; [apply summary_of_failure; exact H|].
    simpl. repeat split.
Qed.

End Aggregator.

(** *** Runs of the aggregator *)

Lemma weeklySums_trailing_windows_witness :
  let run := getPackageDownloads (Sv := Demo.healthy) "oak" "oak" Demo.st0 in
  run = (Returned (Demo.seriesOf 5), snd run) /\
  exists summary,
    getPackageDownloadSummary (Sv := Demo.healthy) "oak" "oak" Demo.st0
    = (Returned summary, snd run) /\
    DownloadSummary.weeklySums summary
    = Spec.weeklySums (or_empty (JsrDownloads.total (Demo.seriesOf 5))) /\
    (List.length (or_empty (JsrDownloads.total (Demo.seriesOf 5))) = 5%nat ->
     DownloadSummary.weeklySums summary = []).
Proof.
  split; [reflexivity|].
  apply (weeklySums_trailing_windows (Sv := Demo.healthy)). reflexivity.
Defined.

(** A hundred points: the four weekly sums, oldest first. *)
Example weeklySums_100 :
  DownloadSummary.weeklySums (summaryOfDownloads (Demo.seriesOf 100))
  = [7 * 76; 7 * 83; 7 * 90; 7 * 97].
Proof. reflexivity. Qed.

Lemma monthlySums_bucket_count_witness :
  let run := getPackageDownloads (Sv := Demo.healthy) "std" "http" Demo.st0 in
  run = (Returned (Demo.seriesOf 100), snd run) /\
  exists summary,
    getPackageDownloadSummary (Sv := Demo.healthy) "std" "http" Demo.st0
    = (Returned summary, snd run) /\
    let l := or_empty (JsrDownloads.total (Demo.seriesOf 100)) in
    let buckets := Z.min 6 (Z.of_nat (List.length l) / 30) in
    Z.of_nat (List.length (DownloadSummary.monthlySums summary)) = buckets /\
    DownloadSummary.monthlySums summary
    = map (fun i => Spec.sum_counts (Spec.window 30 l i))
          (rev (loop_range (Z.to_nat buckets))) /\
    Forall (fun i => Z.of_nat (List.length (Spec.window 30 l i)) = 30)
           (loop_range (Z.to_nat buckets)).
Proof.
  split; [reflexivity|].
  apply (monthlySums_bucket_count (Sv := Demo.healthy)). reflexivity.
Defined.

Lemma activityEntries_recent_window_witness :
  let run := getPackageDownloads (Sv := Demo.healthy) "std" "http" Demo.st0 in
  run = (Returned (Demo.seriesOf 100), snd run) /\
  exists summary,
    getPackageDownloadSummary (Sv := Demo.healthy) "std" "http" Demo.st0
    = (Returned summary, snd run) /\
    DownloadSummary.activityEntries summary
    = Z.min (Z.of_nat (List.length
               (or_empty (JsrDownloads.total (Demo.seriesOf 100))))) 30.
Proof.
  split; [reflexivity|].
  apply (activityEntries_recent_window (Sv := Demo.healthy)). reflexivity.
Defined.

(** The registry serves a series without points: the summary has no
    [error], and its latest version is not the default. *)
Lemma empty_series_sets_no_error :
  let run := getPackageDownloads (Sv := Demo.quiet) "std" "http" Demo.st0 in
  let summary := getPackageDownloadSummary (Sv := Demo.quiet) "std" "http" Demo.st0 in
  fst run = Returned Demo.emptySeries /\
  JsrDownloads.total Demo.emptySeries = Some [] /\
  exists summary',
    fst summary = Returned summary' /\
    DownloadSummary.error summary' = None /\
    DownloadSummary.latestVersion summary' = "1.2.0" /\
    DownloadSummary.latestVersionDownloads summary' = 3.
Proof.
  split; [reflexivity|]. split; [reflexivity|].
  eexists. split; [reflexivity|]. repeat split.
Qed.

Lemma degraded_summary_witness :
  let run := getPackageDownloads (Sv := Demo.quiet) "std" "http" Demo.st0 in
  run = (Returned Demo.emptySeries, snd run) /\
  or_empty (JsrDownloads.total Demo.emptySeries) = [] /\
  exists summary,
    getPackageDownloadSummary (Sv := Demo.quiet) "std" "http" Demo.st0
    = (Returned summary, snd run) /\
    (DownloadSummary.totalDownloads summary = 0 /\
     DownloadSummary.recentDownloads summary = 0 /\
     DownloadSummary.activityEntries summary = 0 /\
     DownloadSummary.lastActivity summary = None /\
     DownloadSummary.last7DaysAverage summary = 0 /\
     DownloadSummary.weeklyAverage summary = 0 /\
     DownloadSummary.monthlyAverage summary = 0 /\
     DownloadSummary.weeklySums summary = [] /\
     DownloadSummary.monthlySums summary = []) /\
    DownloadSummary.error summary = None /\
    DownloadSummary.latestVersion summary = "1.2.0" /\
    DownloadSummary.latestVersionDownloads summary = 3.
Proof.
  split; [reflexivity|]. split; [reflexivity|].
  exact (degraded_summary (Sv := Demo.quiet) "std" "http" Demo.st0 _
           (Returned Demo.emptySeries) eq_refl eq_refl).
Defined.

(** ** The search gateway and the enrichment pipeline *)

Section Pipeline.

Context {World : Type} {Sv : Services World}.

(** [queryOrama] never throws: it sends one request and turns every
    failure of the client into a result without hits. *)
Lemma queryOrama_returns (query : string) (options : Options.t)
    (s : Async.St World) :
  exists r w',
    queryOrama query options s
    = (Returned r,
       Async.mkSt w' (trace s ++ [CallSearch (queryOrama_params query options)])) /\
    match fst (client_search (queryOrama_params query options) (world s)) with
    | Returned (Some res) => r = res
    | Returned None | Thrown _ => OramaSearchResult.hits r = Some []
    end.
Proof.
  unfold queryOrama, try_catch, bind, request, ret.
  destruct (client_search (queryOrama_params query options) (world s))
    as [[[res|]|e] w']; simpl.
  - eauto.
  - eauto.
  - destruct e as [message [response|]|image]; simpl; eauto.
Qed.

Lemma enhanceHit_spec (hit : OramaHit.t) (s : Async.St World) :
  exists summary s',
    getPackageDownloadSummary (PackageInfo.scope (OramaHit.document hit))
      (PackageInfo.name (OramaHit.document hit)) s = (Returned summary, s') /\
    enhanceHit hit s
    = (Returned (with_downloads hit
                   (if truthy_opt_str (DownloadSummary.error summary)
                    then None else Some summary)), s').
Proof.
  destruct (getPackageDownloads (PackageInfo.scope (OramaHit.document hit))
              (PackageInfo.name (OramaHit.document hit)) s)
    as [[d|e] s'] eqn:Hfetch;
    [apply summary_of_series in Hfetch | apply summary_of_failure in Hfetch];
    eexists _, s'; (split; [exact Hfetch|]);
    unfold enhanceHit, try_catch, bind, ret; rewrite Hfetch; reflexivity.
Qed.

Lemma enrichment_returns (l : list OramaHit.t) :
  forall s : Async.St World,
  exists ys s', promise_all_map enhanceHit l s = (Returned ys, s').
Proof.
  induction l as [|x xs IH]; intros s.
  - exists [], s. reflexivity.
  - destruct (enhanceHit_spec x s) as (summary & s1 & _ & Hx).
    destruct (IH s1) as (ys & s' & Hys).
    eexists _, s'. simpl. unfold bind at 1. rewrite Hx.
    unfold bind at 1. rewrite Hys. reflexivity.
Qed.

(** The enrichment of a list of hits returns, one enhanced hit per hit
    and in the same order; hit [k] is served in the state left by the
    hits before it. *)
Lemma enrichment_spec (limited : list OramaHit.t) :
  forall s : Async.St World,
  exists enhanced s',
    promise_all_map enhanceHit limited s = (Returned enhanced, s') /\
    map hit_of enhanced = limited /\
    forall k hit,
      nth_error limited k = Some hit ->
      exists e summary,
        nth_error enhanced k = Some e /\
        fst (getPackageDownloadSummary
               (PackageInfo.scope (OramaHit.document hit))
               (PackageInfo.name (OramaHit.document hit))
               (snd (promise_all_map enhanceHit (firstn k limited) s)))
        = Returned summary /\
        e = with_downloads hit
              (if truthy_opt_str (DownloadSummary.error summary)
               then None else Some summary).
Proof.
  induction limited as [|x xs IH]; intros s.
  - exists [], s. split; [reflexivity|]. split; [reflexivity|].
    intros [|k] hit H; discriminate.
  - destruct (enhanceHit_spec x s) as (summary & s1 & Hsum & Hx).
    destruct (IH s1) as (ys & s' & Hys & Hmap & Hnth).
    exists (with_downloads x
              (if truthy_opt_str (DownloadSummary.error summary)
               then None else Some summary) :: ys), s'.
    split; [|split].
    + simpl. unfold bind at 1. rewrite Hx.
      unfold bind at 1. rewrite Hys. reflexivity.
    + simpl. rewrite Hmap. destruct x; reflexivity.
    + intros [|k] hit H; simpl in H.
      * injection H as <-. exists (with_downloads x
              (if truthy_opt_str (DownloadSummary.error summary)
               then None else Some summary)), summary.
        simpl. rewrite Hsum. auto.
      * destruct (Hnth k hit H) as (e & sm & He & Hf & Heq).
        exists e, sm. split; [exact He|]. split; [|exact Heq].
        rewrite <- Hf. do 2 f_equal.
        simpl. unfold bind at 1. rewrite Hx.
        destruct (enrichment_returns (firstn k xs) s1) as (zs & sk & Hzs).
        unfold bind at 1. rewrite Hzs. reflexivity.
Qed.

Lemma plain_hits (l : list OramaHit.t) :
  map hit_of (map (fun hit => with_downloads hit None) l) = l.
Proof.
  induction l as [|[document score] l IH]; simpl; [|rewrite IH]; reflexivity.
Qed.

(** One unfolding of [findSimilarPackages]: the two searches, the
    states between them, and the enrichment of the limited results. *)
Lemma findSimilarPackages_run (packageName : string) (options : Options.t)
    (s : Async.St World) :
  exists packageResult s1,
    queryOrama packageName resolveOptions s = (Returned packageResult, s1) /\
    trace s1
    = trace s ++ [CallSearch (queryOrama_params packageName resolveOptions)] /\
    match OramaSearchResult.hits packageResult with
    | None | Some [] =>
        findSimilarPackages packageName options s = (Returned packageNotFound, s1)
    | Some (hit0 :: _) =>
        let pkg := OramaHit.document hit0 in
        exists similarResults s2 enhancedHits s',
          queryOrama (searchQueryOf pkg) (similarOptions options) s1
          = (Returned similarResults, s2) /\
          trace s2
          = trace s1 ++ [CallSearch (queryOrama_params (searchQueryOf pkg)
                                        (similarOptions options))] /\
          (if not_false (get (Options.includeDownloads options))
           then promise_all_map enhanceHit
                  (limitResults options (filterOriginal pkg similarResults)) s2
           else (Returned (map (fun hit => with_downloads hit None)
                   (limitResults options (filterOriginal pkg similarResults))),
                 s2))
          = (Returned enhancedHits, s') /\
          map hit_of enhancedHits
          = limitResults options (filterOriginal pkg similarResults) /\
          findSimilarPackages packageName options s
          = (Returned {| SimilarResult.hits := enhancedHits;
                         SimilarResult.count := Z.of_nat (List.length enhancedHits);
                         SimilarResult.error := None;
                         SimilarResult.originalPackage := Some pkg |}, s')
    end.
Proof.
  destruct (queryOrama_returns packageName resolveOptions s)
    as (packageResult & w1 & H1 & _).
  eexists packageResult, _. split; [exact H1|]. split; [reflexivity|].
  destruct (OramaSearchResult.hits packageResult) as [[|hit0 rest]|] eqn:Hh;
    try (unfold findSimilarPackages; unfold bind at 1; rewrite H1, Hh;
         reflexivity).
  cbv zeta.
  match goal with |- context [queryOrama ?q ?o ?st] =>
    destruct (queryOrama_returns q o st) as (similarResults & w2 & H2 & _)
  end.
  set (limited := limitResults options
                    (filterOriginal (OramaHit.document hit0) similarResults)).
  destruct (not_false (get (Options.includeDownloads options))) eqn:Hinc.
  - destruct (enrichment_spec limited (Async.mkSt w2
        (trace (Async.mkSt w1 (trace s ++
           [CallSearch (queryOrama_params packageName resolveOptions)])) ++
         [CallSearch (queryOrama_params (searchQueryOf (OramaHit.document hit0))
                        (similarOptions options))])))
      as (enhanced & s' & Hen & Hmap & _).
    eexists similarResults, _, enhanced, s'.
    split; [exact H2|]. split; [reflexivity|]. split; [exact Hen|].
    split; [exact Hmap|].
    unfold findSimilarPackages. unfold bind at 1. rewrite H1, Hh. cbv zeta.
    unfold bind at 1. rewrite H2. fold limited. rewrite Hinc.
    unfold bind at 1. rewrite Hen. reflexivity.
  - eexists similarResults, _, _, _.
    split; [exact H2|]. split; [reflexivity|]. split; [reflexivity|].
    split; [apply plain_hits|].
    unfold findSimilarPackages. unfold bind at 1. rewrite H1, Hh. cbv zeta.
    unfold bind at 1. rewrite H2. rewrite Hinc. reflexivity.
Qed.

Lemma In_firstn {A} (n : nat) (x : A) :
  forall l, In x (firstn n l) -> In x l.
Proof.
  induction n as [|n IH]; intros [|y l] H; simpl in H; try contradiction.
  destruct H as [->|H]; [left; reflexivity|right; apply IH; exact H].
Qed.

Lemma In_skipn {A} (n : nat) (x : A) :
  forall l, In x (skipn n l) -> In x l.
Proof.
  induction n as [|n IH]; intros [|y l] H; simpl in H; try assumption.
  right. apply IH. exact H.
Qed.

Lemma In_slice {A} (l : list A) (a : Z) (b : option Z) (x : A) :
  In x (slice l a b) -> In x l.
Proof.
  unfold slice. intros H.
  apply In_firstn in H. apply In_skipn in H. exact H.
Qed.

Lemma filterOriginal_excludes (pkg : PackageInfo.t)
    (similarResults : OramaSearchResult.t) (hit : OramaHit.t) :
  In hit (filterOriginal pkg similarResults) ->
  PackageInfo.id (OramaHit.document hit) <> PackageInfo.id pkg.
Proof.
  unfold filterOriginal.
  destruct (OramaSearchResult.hits similarResults) as [hits|]; [|intros []].
  rewrite filter_In. intros [_ H] Heq.
  apply String.eqb_eq in Heq. rewrite Heq in H. discriminate.
Qed.

(** C4. [findSimilarPackages] returns, and when it has resolved the
    original package no returned hit has the id of that package,
    whatever the backend answered and wherever it ranked it; when it has
    not, there is no hit at all. *)
Theorem similar_excludes_original (packageName : string) (options : Options.t)
    (s : Async.St World) :
  exists r s',
    findSimilarPackages packageName options s = (Returned r, s') /\
    match SimilarResult.originalPackage r with
    | Some pkg =>
        Forall (fun e => PackageInfo.id (EnhancedOramaHit.document e)
                         <> PackageInfo.id pkg)
               (SimilarResult.hits r)
    | None => SimilarResult.hits r = []
    end.
Proof.
  destruct (findSimilarPackages_run packageName options s)
    as (packageResult & s1 & _ & _ & H).
  destruct (OramaSearchResult.hits packageResult) as [[|hit0 rest]|];
    try (eexists _, _; split; [exact H|reflexivity]).
  destruct H as (similarResults & s2 & enhanced & s' & _ & _ & _ & Hmap & H).
  eexists _, _. split; [exact H|]. simpl.
  apply Forall_forall. intros e He.
  apply (filterOriginal_excludes _ similarResults (hit_of e)).
  apply (In_slice _ 0 (Some (or_num (get (Options.limit options)) 10))).
  fold (limitResults options
          (filterOriginal (OramaHit.document hit0) similarResults)).
  rewrite <- Hmap. apply in_map. exact He.
Qed.


(** When the caller gives a limit, the spread of the caller's options
    puts that same limit, and not one more, in the second request. *)
Lemma similar_search_limit (query : string) (options : Options.t) (limit : Z) :
  Options.limit options = Val limit ->
  SearchParams.limit (queryOrama_params query (similarOptions options))
  = Some limit.
Proof.
  intros H. unfold queryOrama_params, similarOptions. simpl.
  rewrite H. reflexivity.
Qed.

(** The second request carries the description-weighted boosts unless
    the caller brings boosts of their own. *)
Lemma similar_search_boost (query : string) (options : Options.t) :
  Options.boost options = Absent ->
  SearchParams.boost (queryOrama_params query (similarOptions options))
  = Some [("description", 2.5); ("name", 1.8); ("scope", 1.0); ("id", 0.2)]%Q.
Proof.
  intros H. unfold queryOrama_params, similarOptions. simpl.
  rewrite H. reflexivity.
Qed.

(** The outcome "Package not found" is exactly the outcome of a first
    [queryOrama] result without hit. *)
Lemma not_found_exactly_without_hit (packageName : string)
    (options : Options.t) (s : Async.St World) :
  exists r s' packageResult s1,
    findSimilarPackages packageName options s = (Returned r, s') /\
    queryOrama packageName resolveOptions s = (Returned packageResult, s1) /\
    (SimilarResult.error r = Some "Package not found"
     <-> (OramaSearchResult.hits packageResult = None \/
          OramaSearchResult.hits packageResult = Some [])).
Proof.
  destruct (findSimilarPackages_run packageName options s)
    as (packageResult & s1 & H1 & _ & H).
  destruct (OramaSearchResult.hits packageResult) as [[|hit0 rest]|] eqn:Hh.
  - eexists _, _, packageResult, s1. split; [exact H|]. split; [exact H1|].
    rewrite Hh. simpl. tauto.
  - destruct H as (similarResults & s2 & enhanced & s' & _ & _ & _ & _ & H).
    eexists _, _, packageResult, s1. split; [exact H|]. split; [exact H1|].
    rewrite Hh. simpl. split; [discriminate|]. intros [?|?]; discriminate.
  - eexists _, _, packageResult, s1. split; [exact H|]. split; [exact H1|].
    rewrite Hh. simpl. tauto.
Qed.

(** A first search that the backend rejects, or answers with [null],
    ends in "Package not found" as well. *)
Lemma backend_failure_is_not_found (packageName : string)
    (options : Options.t) (s : Async.St World) :
  match fst (client_search (queryOrama_params packageName resolveOptions)
               (world s)) with
  | Thrown _ | Returned None =>
      fst (findSimilarPackages packageName options s) = Returned packageNotFound
  | Returned (Some _) => True
  end.
Proof.
  destruct (findSimilarPackages_run packageName options s)
    as (packageResult & s1 & H1 & _ & H).
  destruct (queryOrama_returns packageName resolveOptions s)
    as (r & w' & H1' & Hr).
  rewrite H1 in H1'. injection H1' as <- _.
  destruct (fst (client_search (queryOrama_params packageName resolveOptions)
                   (world s))) as [[res|]|e]; try exact I;
    rewrite Hr in H; rewrite H; reflexivity.
Qed.

End Pipeline.

(** *** Runs of the pipeline *)



(** Three similar packages, the download endpoint of the second one
    down: the call returns the three hits in their rank order, and only
    the second one lacks its summary. *)
Example one_failed_fetch_of_three :
  match fst (findSimilarPackages (Sv := Demo.healthy) "@std/http"
               (Demo.limitOnly 5) Demo.st0) with
  | Returned r =>
      map (fun e => (PackageInfo.id (EnhancedOramaHit.document e),
                     option_map DownloadSummary.totalDownloads
                       (EnhancedOramaHit.downloads e)))
          (SimilarResult.hits r)
      = [("@oak/oak", Some 15); ("@hono/hono", None); ("@fresh/core", Some 15)]
  | Thrown _ => False
  end.
Proof. reflexivity. Qed.

(** C5, on the code. [findSimilarPackages("@std/http", { limit: 3 })]:
    the second request asks the backend for 3 results, not 4, with the
    description-weighted boosts; the backend ranks the package itself
    first, so that only 2 similar packages come back. *)
Theorem similar_search_asks_for_limit_itself :
  let run := findSimilarPackages (Sv := Demo.healthy) "@std/http"
               (Demo.limitOnly 3) Demo.st0 in
  nth_error (trace (snd run)) 1
  = Some (CallSearch
            {| SearchParams.term := "http HTTP utilities";
               SearchParams.limit := Some 3;
               SearchParams.offset := Some 0;
               SearchParams.boost :=
                 Some [("description", 2.5); ("name", 1.8); ("scope", 1.0);
                       ("id", 0.2)]%Q;
               SearchParams.mode := Some fulltext;
               SearchParams.includeDownloads := Absent |}) /\
  match fst run with
  | Returned r =>
      map (fun e => PackageInfo.id (EnhancedOramaHit.document e))
          (SimilarResult.hits r) = ["@oak/oak"; "@hono/hono"]
  | Thrown _ => False
  end.
Proof. split; reflexivity. Qed.

(** C8, on the code. The backend rejects the first search with an HTTP
    503: [queryOrama] turns the rejection into a result without hits,
    and [findSimilarPackages] answers "Package not found". *)
Theorem backend_error_reported_as_not_found :
  (exists e,
     fst (client_search (Services := Demo.searchDown)
            (queryOrama_params "@std/http" resolveOptions) 0%nat)
     = Thrown e) /\
  fst (queryOrama (Sv := Demo.searchDown) "@std/http" resolveOptions Demo.st0)
  = Returned (search_failed "Orama API error: upstream unavailable") /\
  fst (findSimilarPackages (Sv := Demo.searchDown) "@std/http"
         (Demo.limitOnly 5) Demo.st0)
  = Returned packageNotFound.
Proof. split; [eexists; reflexivity|]. split; reflexivity. Qed.

(** ** The [compare] tool *)

Section Compare.

Context {World : Type} {Sv : Services World}.

(** A name without ["/"] does not match the pattern of the tool. *)
Lemma bare_name_does_not_match (pkgName : string) :
  split_slash pkgName = None -> match_pkgName pkgName = None.
Proof.
  intros H. unfold match_pkgName.
  assert (Hm : match_scope_name pkgName = None)
    by (unfold match_scope_name; rewrite H; reflexivity).
  destruct pkgName as [|c rest]; [exact Hm|].
  destruct (Ascii.eqb c "@") eqn:Ec.
  - apply Ascii.eqb_eq in Ec. subst c.
    simpl in H.
    destruct (split_slash rest) as [[a b]|] eqn:Hr; [discriminate|].
    unfold match_scope_name at 1. rewrite Hr. exact Hm.
  - destruct c as [[] [] [] [] [] [] [] []]; try exact Hm; discriminate.
Qed.

(** The exact lookup starts with the direct request for [meta.json]. *)
Lemma exactLookup_first_request (scope name : string) (s : Async.St World) :
  exists rest,
    trace (snd (exactLookup scope name s))
    = trace s ++ CallJSRDirect ("/@" ++ scope ++ "/" ++ name ++ "/meta.json")
                 :: rest.
Proof.
  revert s. change (starts_with
    (CallJSRDirect ("/@" ++ scope ++ "/" ++ name ++ "/meta.json"))
    (exactLookup scope name)).
  unfold exactLookup.
  apply starts_with_bind.
  - apply starts_with_try_catch.
    + apply starts_with_request.
    + intros _. apply grows_request.
  - intros pkg. apply grows_bind; [apply grows_request|].
    intros details. apply grows_bind; [|intros; apply grows_ret].
    apply grows_try_catch; [|intros; apply grows_ret].
    apply grows_bind; [apply grows_request|intros; apply grows_ret].
Qed.

(** An entry produced by the exact lookup is a found, first-hand one. *)
Lemma exactLookup_found (scope name : string) (s s1 : Async.St World)
    (entry : ComparedPackage.t) :
  exactLookup scope name s = (Returned entry, s1) ->
  ComparedPackage.found entry = true /\ ComparedPackage.fallback entry = None.
Proof.
  unfold exactLookup, bind, ret.
  destruct (getPackageInfoDirect scope name s) as [[pkg|e] sa]; [|discriminate].
  destruct (getPackageDetails scope name sa) as [[details|e] sb]; [|discriminate].
  destruct (getPackageDownloadSummary scope name sb) as [[summary|e] sc];
    [|discriminate].
  intros H. injection H as <- _. split; reflexivity.
Qed.

(** C9, as the code has it. An identifier that does not match
    [@scope/name] or [scope/name], such as a bare name, is recorded as
    not found at once, without any request. For one that matches, the
    exact lookup comes first; when it succeeds its entry is recorded as
    found; when any part of it throws, exactly one search follows, with
    limit 1 and the boosts name 10, id 8, scope 5, and the identifier is
    recorded as not found only if that search has no hit either. *)
Theorem compare_resolution_order (pkgName : string)
    (packageDetails : list ComparedPackage.t) (s : Async.St World) :
  match split_slash pkgName with
  | None => match_pkgName pkgName = None
  | Some _ => True
  end /\
  match match_pkgName pkgName with
  | None =>
      compareStep pkgName packageDetails s
      = (Returned (packageDetails ++
                   [notFoundEntry pkgName
                      "Invalid package format. Use @scope/name or scope/name"]),
         s)
  | Some (scope, name) =>
      exists entry s',
        compareStep pkgName packageDetails s
        = (Returned (packageDetails ++ [entry]), s') /\
        (exists rest,
           trace s'
           = trace s
             ++ CallJSRDirect ("/@" ++ scope ++ "/" ++ name ++ "/meta.json")
                :: rest) /\
        match exactLookup scope name s with
        | (Returned exact, s1) =>
            entry = exact /\ s' = s1 /\
            ComparedPackage.found entry = true /\
            ComparedPackage.fallback entry = None
        | (Thrown _, s1) =>
            exists searchResult,
              queryOrama pkgName fallbackOptions s1 = (Returned searchResult, s') /\
              trace s'
              = trace s1
                ++ [CallSearch
                      {| SearchParams.term := pkgName;
                         SearchParams.limit := Some 1;
                         SearchParams.offset := Some 0;
                         SearchParams.boost :=
                           Some [("name", 10); ("id", 8); ("scope", 5)]%Q;
                         SearchParams.mode := Some fulltext;
                         SearchParams.includeDownloads := Absent |}] /\
              match firstHit searchResult with
              | Some hit =>
                  entry = fallbackEntry (OramaHit.document hit) /\
                  ComparedPackage.found entry = true
              | None =>
                  entry = notFoundEntry pkgName "Package not found" /\
                  ComparedPackage.found entry = false
              end
        end
  end.
Proof.
  split.
  { destruct (split_slash pkgName) eqn:H; [exact I|].
    apply bare_name_does_not_match. exact H. }
  unfold compareStep.
  destruct (match_pkgName pkgName) as [[scope name]|]; [|reflexivity].
  destruct (exactLookup_first_request scope name s) as (rest & Hfirst).
  destruct (exactLookup scope name s) as [[exact|e] s1] eqn:Hex.
  - exists exact, s1.
    split; [unfold try_catch, bind, ret; rewrite Hex; reflexivity|].
    split; [exists rest; exact Hfirst|].
    destruct (exactLookup_found scope name s s1 exact Hex) as [Hf Hb].
    auto.
  - destruct (queryOrama_returns pkgName fallbackOptions s1)
      as (searchResult & w' & Hq & _).
    cbn [snd] in Hfirst.
    destruct (firstHit searchResult) as [hit|] eqn:Hhit.
    + eexists _, _. split.
      * unfold try_catch at 1. unfold bind at 1. unfold try_catch at 1.
        rewrite Hex. unfold searchFallback. unfold bind at 1.
        rewrite Hq, Hhit. reflexivity.
      * split.
        -- cbn [trace]. rewrite Hfirst. rewrite <- app_assoc. cbn [app]. eauto.
        -- exists searchResult. split; [exact Hq|]. split; [reflexivity|].
           rewrite Hhit. split; reflexivity.
    + eexists _, _. split.
      * unfold try_catch at 1. unfold bind at 1. unfold try_catch at 1.
        rewrite Hex. unfold searchFallback. unfold bind at 1.
        rewrite Hq, Hhit. reflexivity.
      * split.
        -- cbn [trace]. rewrite Hfirst. rewrite <- app_assoc. cbn [app]. eauto.
        -- exists searchResult. split; [exact Hq|]. split; [reflexivity|].
           rewrite Hhit. split; reflexivity.
Qed.

End Compare.

(** *** Runs of the tool *)

(** A bare name: although every service answers, and the search would
    return a hit for it, the tool makes no request for ["netsaur"] and
    records it as not found. *)
Lemma bare_name_is_never_looked_up :
  let run := compare (Sv := Demo.healthy) (fun _ _ => EmptyString) ["netsaur"]
               Demo.st0 in
  trace (snd run) = [] /\
  (exists hit,
     option_map firstHit
       match fst (queryOrama (Sv := Demo.healthy) "netsaur" fallbackOptions
                    Demo.st0) with
       | Returned searchResult => Some searchResult
       | Thrown _ => None
       end = Some (Some hit)) /\
  match fst run with
  | Returned result =>
      option_map CompareMeta.foundPackages (ToolResult.meta result) = Some [] /\
      option_map CompareMeta.notFoundPackages (ToolResult.meta result)
      = Some [notFoundEntry "netsaur"
                "Invalid package format. Use @scope/name or scope/name"]
  | Thrown _ => False
  end.
Proof.
  split; [reflexivity|]. split; [eexists; reflexivity|]. split; reflexivity.
Qed.

(** The registry is down, the search answers: ["@std/http"] is found
    through the fallback. *)
Example fallback_after_failed_lookup :
  match fst (compare (Sv := Demo.registryDown) (fun _ _ => EmptyString)
               ["@std/http"] Demo.st0) with
  | Returned result =>
      option_map (fun m => map (fun p => (ComparedPackage.id p,
                                          ComparedPackage.fallback p))
                             (CompareMeta.foundPackages m))
        (ToolResult.meta result)
      = Some [("@std/http", Some true)]
  | Thrown _ => False
  end.
Proof. reflexivity. Qed.

(** The download endpoint of ["@hono/hono"] is down: the failure stays
    inside the summary, the exact lookup succeeds with zero downloads,
    and no search is made. *)
Example failed_downloads_do_not_trigger_fallback :
  let run := compare (Sv := Demo.healthy) (fun _ _ => EmptyString)
               ["@hono/hono"] Demo.st0 in
  trace (snd run)
  = [CallJSRDirect "/@hono/hono/meta.json";
     CallJSRAPI "/scopes/hono/packages/hono";
     CallJSRAPI "/scopes/hono/packages/hono/downloads"] /\
  match fst run with
  | Returned result =>
      option_map (fun m => map (fun p => (ComparedPackage.id p,
                                          ComparedPackage.fallback p,
                                          ComparedPackage.totalDownloads p))
                             (CompareMeta.foundPackages m))
        (ToolResult.meta result)
      = Some [("@hono/hono", None, Some 0)]
  | Thrown _ => False
  end.
Proof. split; reflexivity. Qed.

(** * Further properties *)

(** ** Sums over parts of a series *)

Lemma sum_counts_app (l1 l2 : list JsrDownloadPoint.t) :
  Spec.sum_counts (l1 ++ l2) = Spec.sum_counts l1 + Spec.sum_counts l2.
Proof.
  induction l1 as [|p l1 IH]; simpl; [reflexivity|]. rewrite IH. lia.
Qed.

Lemma sum_counts_nonneg (l : list JsrDownloadPoint.t) :
  Forall (fun p => 0 <= JsrDownloadPoint.count p) l -> 0 <= Spec.sum_counts l.
Proof.
  induction 1 as [|p l Hp _ IH]; simpl; lia.
Qed.

Lemma firstn_plus {A} (a b : nat) :
  forall l : list A, firstn (a + b) l = firstn a l ++ firstn b (skipn a l).
Proof.
  induction a as [|a IH]; intros [|x l]; simpl; try reflexivity.
  - rewrite firstn_nil. reflexivity.
  - rewrite IH. reflexivity.
Qed.

(** Two adjacent ranges of points add up to their union. *)
Lemma points_split (l : list JsrDownloadPoint.t) (a b c : Z) :
  0 <= a <= b -> b <= c ->
  Spec.sum_counts (Spec.points l a b) + Spec.sum_counts (Spec.points l b c)
  = Spec.sum_counts (Spec.points l a c).
Proof.
  intros Hab Hbc. unfold Spec.points.
  replace (Z.to_nat (c - a)) with (Z.to_nat (b - a) + Z.to_nat (c - b))%nat by lia.
  rewrite firstn_plus, sum_counts_app, skipn_skipn.
  replace (Z.to_nat (b - a) + Z.to_nat a)%nat with (Z.to_nat b) by lia.
  reflexivity.
Qed.

Lemma points_suffix (l : list JsrDownloadPoint.t) (a : Z) :
  0 <= a ->
  Spec.points l a (Z.of_nat (List.length l)) = skipn (Z.to_nat a) l.
Proof.
  intros Ha. unfold Spec.points. apply firstn_all2.
  rewrite length_skipn. lia.
Qed.

Lemma points_all (l : list JsrDownloadPoint.t) :
  Spec.points l 0 (Z.of_nat (List.length l)) = l.
Proof. rewrite points_suffix by lia. reflexivity. Qed.

(** [slice(-n)] keeps the last [n] points, or all of them. *)
Lemma slice_last_points (l : list JsrDownloadPoint.t) (n : Z) :
  0 < n ->
  slice l (- n) None
  = Spec.points l (Z.max 0 (Z.of_nat (List.length l) - n))
      (Z.of_nat (List.length l)).
Proof.
  intros Hn. unfold slice, Spec.points.
  destruct (- n <? 0) eqn:E; [|apply Z.ltb_ge in E; lia].
  replace (Z.max (Z.of_nat (List.length l) + - n) 0)
    with (Z.max 0 (Z.of_nat (List.length l) - n)) by lia.
  reflexivity.
Qed.

Lemma Forall_skipn {A} (P : A -> Prop) (n : nat) (l : list A) :
  Forall P l -> Forall P (skipn n l).
Proof.
  rewrite !Forall_forall. intros H x Hx. apply H.
  revert l Hx H. induction n as [|n IH]; intros [|y l] Hx H; simpl in Hx;
    try assumption.
  right. apply (IH l); [exact Hx|]. intros z Hz. apply H. right. exact Hz.
Qed.

(** A trailing range of a series of non-negative counts weighs at most
    the whole series. *)
Lemma suffix_sum_bounds (l : list JsrDownloadPoint.t) (a : Z) :
  0 <= a ->
  Forall (fun p => 0 <= JsrDownloadPoint.count p) l ->
  0 <= Spec.sum_counts (Spec.points l a (Z.of_nat (List.length l)))
  <= Spec.sum_counts l.
Proof.
  intros Ha Hl. rewrite points_suffix by lia.
  rewrite <- (firstn_skipn (Z.to_nat a) l) at 3.
  rewrite sum_counts_app.
  assert (0 <= Spec.sum_counts (skipn (Z.to_nat a) l))
    by (apply sum_counts_nonneg, Forall_skipn, Hl).
  assert (0 <= Spec.sum_counts (firstn (Z.to_nat a) l)).
  { apply sum_counts_nonneg. rewrite Forall_forall in *.
    intros x Hx. apply Hl.
    rewrite <- (firstn_skipn (Z.to_nat a) l). apply in_or_app. left. exact Hx. }
  lia.
Qed.

(** The windows [0 .. q-1] tile the last [size * q] points. *)
Lemma windows_cover (size : Z) (l : list JsrDownloadPoint.t) :
  0 < size ->
  forall q : nat,
    size * Z.of_nat q <= Z.of_nat (List.length l) ->
    sumZ (map (fun i => Spec.sum_counts (Spec.window size l i))
            (rev (loop_range q)))
    = Spec.sum_counts
        (Spec.points l (Z.of_nat (List.length l) - size * Z.of_nat q)
           (Z.of_nat (List.length l))).
Proof.
  intros Hs. induction q as [|q IH]; intros Hq.
  - simpl. replace (Z.of_nat (List.length l) - size * 0)
      with (Z.of_nat (List.length l)) by lia.
    unfold Spec.points. rewrite Z.sub_diag. reflexivity.
  - rewrite loop_range_S, rev_app_distr. cbn [rev app map sumZ fold_right].
    fold (sumZ (map (fun i => Spec.sum_counts (Spec.window size l i))
                  (rev (loop_range q)))).
    rewrite IH by lia. unfold Spec.window.
    replace (Z.of_nat (List.length l) - size * Z.of_nat (S q))
      with (Z.of_nat (List.length l) - size * (Z.of_nat q + 1)) by lia.
    apply points_split; lia.
Qed.

(** The sums of the loop add up to the last [size * min(n, len / size)]
    points. *)
Lemma windowSums_total (size : Z) (n : nat) (l : list JsrDownloadPoint.t) :
  0 < size ->
  let q := Z.min (Z.of_nat n) (Z.of_nat (List.length l) / size) in
  Z.of_nat (List.length (Spec.windowSums size n l)) = q /\
  sumZ (Spec.windowSums size n l)
  = Spec.sum_counts
      (Spec.points l (Z.of_nat (List.length l) - size * q)
         (Z.of_nat (List.length l))).
Proof.
  intros Hs q. unfold Spec.windowSums.
  rewrite included_windows by exact Hs.
  set (len := Z.of_nat (List.length l)) in *.
  assert (Hlen : 0 <= len) by (unfold len; lia).
  pose proof (Z.div_mod len size ltac:(lia)) as Hdm.
  pose proof (Z.mod_pos_bound len size Hs) as Hmod.
  assert (Hdiv : 0 <= len / size) by (apply Z.div_pos; lia).
  assert (Hq : Z.of_nat (Nat.min n (Z.to_nat (len / size))) = q)
    by (unfold q; lia).
  split.
  - rewrite length_map, length_rev, length_loop_range. exact Hq.
  - unfold len. rewrite windows_cover; fold len.
    + rewrite Hq. reflexivity.
    + exact Hs.
    + rewrite Hq. unfold q. nia.
Qed.

(** ** [Math.round] of a quotient and of a product of doubles *)

Lemma binade_lower (n d : Z) :
  0 < n -> 0 < d ->
  (0 <= binade n d -> d * 2 ^ binade n d <= n) /\
  (binade n d < 0 -> d <= n * 2 ^ (- binade n d)).
Proof.
  intros Hn Hd. unfold binade.
  destruct (d <=? n) eqn:E.
  - apply Z.leb_le in E.
    assert (Hq : 0 < n / d) by (apply Z.div_str_pos; lia).
    pose proof (Z.log2_spec (n / d) Hq) as [Hlo _].
    pose proof (Z.mul_div_le n d Hd) as Hmul.
    pose proof (Z.log2_nonneg (n / d)) as Hnn.
    split; [intros _; nia|lia].
  - apply Z.leb_gt in E.
    set (c := (d + n - 1) / n).
    assert (Hc : 1 < c).
    { assert (2 <= c); [|lia].
      apply Z.div_le_lower_bound; lia. }
    pose proof (Z.log2_up_spec c Hc) as [_ Hup].
    pose proof (Z.log2_up_pos c Hc) as Hpos.
    pose proof (Z.div_mod (d + n - 1) n ltac:(lia)) as Hdm.
    pose proof (Z.mod_pos_bound (d + n - 1) n Hn) as Hmod.
    fold c in Hdm.
    split; [lia|]. intros _. rewrite Z.opp_involutive. nia.
Qed.

(** The value of [m / 2^p] rounded as [Math.round] does. *)
Lemma Math_round_dyadic (m p : Z) :
  0 < p ->
  Math_round (m # Z.to_pos (2 ^ p)) = (2 * m + 2 ^ p) / (2 * 2 ^ p).
Proof.
  intros Hp.
  assert (HP : 0 < 2 ^ p) by (apply Z.pow_pos_nonneg; lia).
  unfold Math_round, Qfloor, Qplus. cbn [Qnum Qden].
  rewrite Pos2Z.inj_mul, Z2Pos.id by exact HP.
  f_equal; lia.
Qed.

(** Below [2^52] the rounding of the quotient to a double does not
    change the integer that [Math.round] gives. *)
Lemma Math_round_round64_pos (a d : Z) :
  0 < a < 2 ^ 52 -> 0 < d ->
  Math_round (round64_pos a d) = (2 * a + d) / (2 * d).
Proof.
  intros Ha Hd. unfold round64_pos.
  destruct (binade_lower a d ltac:(lia) Hd) as [Hpos Hneg].
  set (e := binade a d) in *.
  assert (He : e < 52).
  { destruct (Z.lt_ge_cases e 52) as [|Hge]; [assumption|].
    pose proof (Hpos ltac:(lia)) as H1.
    pose proof (Z.pow_le_mono_r 2 52 e ltac:(lia) Hge) as H2.
    nia. }
  destruct (52 <=? e) eqn:E; [apply Z.leb_le in E; lia|]. clear E.
  set (p := 52 - e).
  assert (Hp : 0 < p) by (unfold p; lia).
  assert (HP : 0 < 2 ^ p) by (apply Z.pow_pos_nonneg; lia).
  assert (Hdp : d < 2 ^ p).
  { destruct (Z.lt_ge_cases e 0) as [Hlt|Hge].
    - pose proof (Hneg Hlt) as H1.
      assert (H2 : 2 ^ p = 2 ^ 52 * 2 ^ (- e))
        by (unfold p; rewrite <- Z.pow_add_r by lia; f_equal; lia).
      assert (0 < 2 ^ (- e)) by (apply Z.pow_pos_nonneg; lia).
      nia.
    - pose proof (Hpos Hge) as H1.
      assert (H2 : 2 ^ 52 = 2 ^ e * 2 ^ p)
        by (unfold p; rewrite <- Z.pow_add_r by lia; f_equal; lia).
      assert (0 < 2 ^ e) by (apply Z.pow_pos_nonneg; lia).
      nia. }
  rewrite Math_round_dyadic by exact Hp.
  set (H := 2 ^ (p - 1)).
  assert (HH : 0 < H) by (apply Z.pow_pos_nonneg; lia).
  assert (HPH : 2 ^ p = 2 * H).
  { unfold H. replace p with (1 + (p - 1)) at 1 by lia.
    rewrite Z.pow_add_r by lia. reflexivity. }
  set (k := (2 * a + d) / (2 * d)).
  pose proof (Z.div_mod (2 * a + d) (2 * d) ltac:(lia)) as Hk.
  pose proof (Z.mod_pos_bound (2 * a + d) (2 * d) ltac:(lia)) as Hkr.
  fold k in Hk.
  set (A := a * 2 ^ p).
  pose proof (Z.div_mod A d ltac:(lia)) as Hf.
  pose proof (Z.mod_pos_bound A d Hd) as Hfr.
  assert (HA : A = 2 * a * H) by (unfold A; rewrite HPH; ring).
  (* the window of [k] in units of [H] *)
  assert (Hlow : (2 * k - 1) * H * d <= A) by (rewrite HA; nia).
  assert (Hupp : A + H <= (2 * k + 1) * H * d) by (rewrite HA; nia).
  assert (Hm : (2 * k - 1) * H <= round_half_even A d < (2 * k + 1) * H).
  { unfold round_half_even.
    destruct (2 * (A mod d) ?= d) eqn:C;
      [apply Z.compare_eq in C|rewrite Z.compare_lt_iff in C
      |rewrite Z.compare_gt_iff in C];
      try destruct (Z.even (A / d)); nia. }
  symmetry. apply Z.div_unique with
    (r := 2 * round_half_even A d + 2 ^ p - 2 * 2 ^ p * k); nia.
Qed.

Lemma Math_round_Number_div (a n : Z) :
  0 <= a < 2 ^ 52 -> 0 < n ->
  Math_round (Number_div a n) = (2 * a + n) / (2 * n).
Proof.
  intros Ha Hn. destruct n as [|pn|pn]; try lia.
  unfold Number_div, round64, Qdiv, Qinv, Qmult, inject_Z. cbn [Qnum Qden].
  rewrite Z.mul_1_r.
  destruct a as [|pa|pa]; try lia.
  - cbv [Math_round Qfloor Qplus Qnum Qden].
    symmetry. apply Z.div_small. lia.
  - cbn [Pos.mul]. apply Math_round_round64_pos; lia.
Qed.

Lemma Math_round_Number_mul (a b : Z) :
  0 <= a * b < 2 ^ 52 ->
  Math_round (Number_mul a b) = a * b.
Proof.
  intros Hab.
  unfold Number_mul, round64, Qmult, inject_Z. cbn [Qnum Qden].
  destruct (a * b) as [|p|p] eqn:E; try lia.
  - reflexivity.
  - cbn [Pos.mul]. rewrite Math_round_round64_pos by lia.
    symmetry. apply Z.div_unique with (r := 1); lia.
Qed.

(** The nearest integer to [a / n], halves going up. *)
Lemma round_div_bounds (a n : Z) :
  0 < n ->
  2 * n * ((2 * a + n) / (2 * n)) <= 2 * a + n
  < 2 * n * ((2 * a + n) / (2 * n) + 1).
Proof.
  intros Hn.
  pose proof (Z.div_mod (2 * a + n) (2 * n) ltac:(lia)) as Hdm.
  pose proof (Z.mod_pos_bound (2 * a + n) (2 * n) ltac:(lia)) as Hmod.
  lia.
Qed.

Lemma last_elt_snoc {A} (l : list A) (x : A) : last_elt (l ++ [x]) = Some x.
Proof.
  unfold last_elt. rewrite length_app. simpl.
  replace (List.length l + 1 - 1)%nat with (List.length l) by lia.
  rewrite nth_error_app2 by lia. rewrite Nat.sub_diag. reflexivity.
Qed.

Lemma last_elt_rev {A} (l : list A) : last_elt l = hd_error (rev l).
Proof.
  destruct (rev l) as [|x r] eqn:E.
  - apply (f_equal (@rev A)) in E. rewrite rev_involutive in E. subst l.
    reflexivity.
  - apply (f_equal (@rev A)) in E. rewrite rev_involutive in E. subst l.
    simpl. apply last_elt_snoc.
Qed.

(** Dropping points from the front keeps the last point, as long as
    one point is left. *)
Lemma last_elt_skipn {A} (l : list A) (k : nat) :
  (k < List.length l)%nat -> last_elt (skipn k l) = last_elt l.
Proof.
  intros Hk. destruct (rev l) as [|x r] eqn:E.
  - apply (f_equal (@rev A)) in E. rewrite rev_involutive in E. subst l.
    simpl in Hk. lia.
  - apply (f_equal (@rev A)) in E. rewrite rev_involutive in E. subst l.
    simpl in *. rewrite length_app in Hk. simpl in Hk.
    rewrite skipn_app.
    replace (k - List.length (rev r))%nat with 0%nat by lia.
    simpl. rewrite !last_elt_snoc. reflexivity.
Qed.

(** ** More on the aggregator *)

Section AggregatorMore.

Context {World : Type} {Sv : Services World}.

(** X1. [totalDownloads] is the sum of all counts and [recentDownloads]
    the sum of the last 30 points (of all of them when there are fewer);
    with non-negative counts the recent total lies between 0 and the
    overall total, and equals it for a series of at most 30 points. *)
Theorem totals_and_recent_window (scope name : string)
    (s s' : Async.St World) (d : JsrDownloads.t) :
  getPackageDownloads scope name s = (Returned d, s') ->
  Forall (fun p => 0 <= JsrDownloadPoint.count p)
         (or_empty (JsrDownloads.total d)) ->
  exists summary,
    getPackageDownloadSummary scope name s = (Returned summary, s') /\
    let l := or_empty (JsrDownloads.total d) in
    let len := Z.of_nat (List.length l) in
    DownloadSummary.totalDownloads summary = Spec.sum_counts l /\
    DownloadSummary.recentDownloads summary
    = Spec.sum_counts (Spec.points l (Z.max 0 (len - 30)) len) /\
    0 <= DownloadSummary.recentDownloads summary
      <= DownloadSummary.totalDownloads summary /\
    (len <= 30 ->
     DownloadSummary.recentDownloads summary
     = DownloadSummary.totalDownloads summary).
Proof.
  intros H Hpos. exists (summaryOfDownloads d).
  split; [apply summary_of_series; exact H|]. cbv zeta.
  set (l := or_empty (JsrDownloads.total d)) in *.
  assert (Ht : DownloadSummary.totalDownloads (summaryOfDownloads d)
               = Spec.sum_counts l).
  { unfold summaryOfDownloads, l. simpl.
    destruct (JsrDownloads.total d) as [total|]; simpl; [|reflexivity].
    rewrite reduce_count_sum.
    destruct (Spec.sum_counts total =? 0) eqn:E; [|reflexivity].
    apply Z.eqb_eq in E. lia. }
  assert (Hr : DownloadSummary.recentDownloads (summaryOfDownloads d)
               = Spec.sum_counts
                   (Spec.points l (Z.max 0 (Z.of_nat (List.length l) - 30))
                      (Z.of_nat (List.length l)))).
  { change (DownloadSummary.recentDownloads (summaryOfDownloads d))
      with (reduce_count
              (or_empty (option_map (fun total => slice total (-30) None)
                           (JsrDownloads.total d)))).
    unfold l. destruct (JsrDownloads.total d) as [total|]; cbn [option_map or_empty].
    - pose proof (slice_last_points total 30 ltac:(lia)) as Hs.
      cbn [Z.opp] in Hs. rewrite reduce_count_sum, Hs. reflexivity.
    - reflexivity. }
  rewrite Ht, Hr. split; [reflexivity|]. split; [reflexivity|].
  split.
  - apply suffix_sum_bounds; [lia|exact Hpos].
  - intros Hlen. replace (Z.max 0 (Z.of_nat (List.length l) - 30)) with 0 by lia.
    rewrite points_all. reflexivity.
Qed.

(** X2. The weekly sums are [min(4, floor(len / 7))] in number and add
    up to the sum of the last [7 * min(4, floor(len / 7))] points; the
    monthly sums add up to the sum of the last
    [30 * min(6, floor(len / 30))] points: the windows neither overlap
    nor leave a gap. *)
Theorem bucket_sums_tile_the_tail (scope name : string)
    (s s' : Async.St World) (d : JsrDownloads.t) :
  getPackageDownloads scope name s = (Returned d, s') ->
  exists summary,
    getPackageDownloadSummary scope name s = (Returned summary, s') /\
    let l := or_empty (JsrDownloads.total d) in
    let len := Z.of_nat (List.length l) in
    let weeks := Z.min 4 (len / 7) in
    let months := Z.min 6 (len / 30) in
    Z.of_nat (List.length (DownloadSummary.weeklySums summary)) = weeks /\
    sumZ (DownloadSummary.weeklySums summary)
    = Spec.sum_counts (Spec.points l (len - 7 * weeks) len) /\
    sumZ (DownloadSummary.monthlySums summary)
    = Spec.sum_counts (Spec.points l (len - 30 * months) len).
Proof.
  intros H. exists (summaryOfDownloads d).
  split; [apply summary_of_series; exact H|]. cbv zeta.
  set (l := or_empty (JsrDownloads.total d)).
  change (DownloadSummary.weeklySums (summaryOfDownloads d))
    with (fold_left (weekStep l) (loop_range 4) []).
  change (DownloadSummary.monthlySums (summaryOfDownloads d))
    with (fold_left (monthStep l) (loop_range 6) []).
  rewrite weekLoop_spec, monthLoop_spec.
  destruct (windowSums_total 7 4 l ltac:(lia)) as [Hw1 Hw2].
  destruct (windowSums_total 30 6 l ltac:(lia)) as [_ Hm2].
  repeat split; assumption.
Qed.

(** X3. [lastActivity] is the time bucket of the very last point of
    the series; it is absent when the series is empty or that time
    bucket is the empty string. *)
Theorem lastActivity_is_last_point (scope name : string)
    (s s' : Async.St World) (d : JsrDownloads.t) :
  getPackageDownloads scope name s = (Returned d, s') ->
  exists summary,
    getPackageDownloadSummary scope name s = (Returned summary, s') /\
    match rev (or_empty (JsrDownloads.total d)) with
    | [] => DownloadSummary.lastActivity summary = None
    | p :: _ =>
        DownloadSummary.lastActivity summary
        = if truthy_str (JsrDownloadPoint.timeBucket p)
          then Some (JsrDownloadPoint.timeBucket p) else None
    end.
Proof.
  intros H. exists (summaryOfDownloads d).
  split; [apply summary_of_series; exact H|].
  change (DownloadSummary.lastActivity (summaryOfDownloads d))
    with (or_undefined
            (option_map JsrDownloadPoint.timeBucket
               (last_elt
                  (or_empty (option_map (fun total => slice total (-30) None)
                               (JsrDownloads.total d)))))).
  destruct (JsrDownloads.total d) as [total|]; cbn [option_map or_empty];
    [|reflexivity].
  assert (E : last_elt (slice total (-30) None) = hd_error (rev total)).
  { rewrite <- last_elt_rev.
    pose proof (slice_last_points total 30 ltac:(lia)) as Hs.
    cbn [Z.opp] in Hs. rewrite Hs.
    rewrite points_suffix by lia.
    destruct total as [|p total]; [reflexivity|].
    apply last_elt_skipn. simpl List.length. lia. }
  rewrite E. destruct (rev total) as [|p r]; reflexivity.
Qed.

Lemma totalDownloads_sum (d : JsrDownloads.t) :
  DownloadSummary.totalDownloads (summaryOfDownloads d)
  = Spec.sum_counts (or_empty (JsrDownloads.total d)).
Proof.
  unfold summaryOfDownloads. simpl.
  destruct (JsrDownloads.total d) as [total|]; simpl; [|reflexivity].
  rewrite reduce_count_sum.
  destruct (Spec.sum_counts total =? 0) eqn:E; [|reflexivity].
  apply Z.eqb_eq in E. lia.
Qed.

(** X4. When no count is negative and the last [n = min(7, len)]
    counts add up to less than [2^52], [last7DaysAverage] is 0 for an
    empty series, and otherwise the integer nearest to the mean of
    these points, halves rounded up. *)
Theorem last7DaysAverage_is_rounded_mean (scope name : string)
    (s s' : Async.St World) (d : JsrDownloads.t) :
  getPackageDownloads scope name s = (Returned d, s') ->
  Forall (fun p => 0 <= JsrDownloadPoint.count p)
         (or_empty (JsrDownloads.total d)) ->
  0 <= Spec.sum_counts
         (Spec.points (or_empty (JsrDownloads.total d))
            (Z.max 0 (Z.of_nat (List.length (or_empty (JsrDownloads.total d))) - 7))
            (Z.of_nat (List.length (or_empty (JsrDownloads.total d)))))
    < 2 ^ 52 ->
  exists summary,
    getPackageDownloadSummary scope name s = (Returned summary, s') /\
    let l := or_empty (JsrDownloads.total d) in
    let len := Z.of_nat (List.length l) in
    let n := Z.min 7 len in
    let total7 := Spec.sum_counts (Spec.points l (Z.max 0 (len - 7)) len) in
    let average := DownloadSummary.last7DaysAverage summary in
    (len = 0 -> average = 0) /\
    (0 < len ->
     2 * n * average <= 2 * total7 + n < 2 * n * (average + 1)).
Proof.
  intros H _ Hrange. exists (summaryOfDownloads d).
  split; [apply summary_of_series; exact H|]. cbv zeta.
  set (l := or_empty (JsrDownloads.total d)) in *.
  change (DownloadSummary.last7DaysAverage (summaryOfDownloads d))
    with (if Z.of_nat (List.length (slice l (-7) None)) >? 0
          then Math_round
                 (Number_div (reduce_count (slice l (-7) None))
                    (Z.of_nat (List.length (slice l (-7) None))))
          else 0).
  pose proof (length_slice_last l 7 ltac:(lia)) as Hlen7.
  pose proof (slice_last_points l 7 ltac:(lia)) as Hs.
  cbn [Z.opp] in Hlen7, Hs.
  rewrite Hlen7, reduce_count_sum, Hs.
  split.
  - intros Hlen. rewrite Hlen. reflexivity.
  - intros Hlen.
    replace (Z.min (Z.of_nat (List.length l)) 7)
      with (Z.min 7 (Z.of_nat (List.length l))) by lia.
    destruct (Z.min 7 (Z.of_nat (List.length l)) >? 0) eqn:E;
      [|rewrite Z.gtb_ltb in E; apply Z.ltb_ge in E; lia].
    rewrite Math_round_Number_div by lia.
    apply round_div_bounds. lia.
Qed.

(** X5. When no count is negative and the counts add up to less than
    [2^47], [weeklyAverage] and [monthlyAverage] are 7 times and 30 times one
    daily average, which is 0 for an empty series and otherwise the
    integer nearest to [totalDownloads / len], halves rounded up. *)
Theorem averages_extrapolate_the_daily_mean (scope name : string)
    (s s' : Async.St World) (d : JsrDownloads.t) :
  getPackageDownloads scope name s = (Returned d, s') ->
  Forall (fun p => 0 <= JsrDownloadPoint.count p)
         (or_empty (JsrDownloads.total d)) ->
  0 <= Spec.sum_counts (or_empty (JsrDownloads.total d)) < 2 ^ 47 ->
  exists summary daily,
    getPackageDownloadSummary scope name s = (Returned summary, s') /\
    let len := Z.of_nat (List.length (or_empty (JsrDownloads.total d))) in
    let total := DownloadSummary.totalDownloads summary in
    DownloadSummary.weeklyAverage summary = 7 * daily /\
    DownloadSummary.monthlyAverage summary = 30 * daily /\
    (len = 0 -> daily = 0) /\
    (0 < len -> 2 * len * daily <= 2 * total + len < 2 * len * (daily + 1)).
Proof.
  intros H _ Hrange.
  set (l := or_empty (JsrDownloads.total d)) in *.
  set (total := DownloadSummary.totalDownloads (summaryOfDownloads d)).
  set (entries := or_num (Some (Z.of_nat (List.length l))) 0).
  set (daily := if entries >? 0
                then Math_round (Number_div total entries) else 0).
  exists (summaryOfDownloads d), daily.
  split; [apply summary_of_series; exact H|]. cbv zeta.
  assert (Ht : total = Spec.sum_counts l) by apply totalDownloads_sum.
  assert (He : entries = Z.of_nat (List.length l)).
  { unfold entries, or_num.
    destruct (Z.of_nat (List.length l) =? 0) eqn:E; [|reflexivity].
    apply Z.eqb_eq in E. lia. }
  assert (Hdaily : (Z.of_nat (List.length l) = 0 -> daily = 0) /\
                   (0 < Z.of_nat (List.length l) ->
                    2 * Z.of_nat (List.length l) * daily
                    <= 2 * total + Z.of_nat (List.length l)
                    < 2 * Z.of_nat (List.length l) * (daily + 1))).
  { unfold daily. rewrite He. split.
    - intros Hlen. rewrite Hlen. reflexivity.
    - intros Hlen.
      destruct (Z.of_nat (List.length l) >? 0) eqn:E;
        [|rewrite Z.gtb_ltb in E; apply Z.ltb_ge in E; lia].
      rewrite Math_round_Number_div by lia.
      apply round_div_bounds. lia. }
  assert (Hbound : 0 <= daily < 2 ^ 47).
  { destruct Hdaily as [H0 Hpos].
    destruct (Z.eq_dec (Z.of_nat (List.length l)) 0) as [Hz|Hnz].
    - rewrite (H0 Hz). lia.
    - specialize (Hpos ltac:(lia)). nia. }
  split; [|split; [|exact Hdaily]].
  - change (DownloadSummary.weeklyAverage (summaryOfDownloads d))
      with (Math_round (Number_mul daily 7)).
    rewrite Math_round_Number_mul by lia. lia.
  - change (DownloadSummary.monthlyAverage (summaryOfDownloads d))
      with (Math_round (Number_mul daily 30)).
    rewrite Math_round_Number_mul by lia. lia.
Qed.

(** X6. [latestVersion] is never the empty string: it is the version
    of the first recent version, or ["Unknown"] when there is none or
    its name is empty; [latestVersionDownloads] is the sum of the
    counts of that first version, 0 when it is missing or has no
    download list. *)
Theorem latest_version_defaults (scope name : string)
    (s s' : Async.St World) (d : JsrDownloads.t) :
  getPackageDownloads scope name s = (Returned d, s') ->
  exists summary,
    getPackageDownloadSummary scope name s = (Returned summary, s') /\
    DownloadSummary.latestVersion summary <> "" /\
    match or_empty (JsrDownloads.recentVersions d) with
    | [] =>
        DownloadSummary.latestVersion summary = "Unknown" /\
        DownloadSummary.latestVersionDownloads summary = 0
    | v :: _ =>
        DownloadSummary.latestVersion summary
        = (if truthy_str (JsrVersionDownloads.version v)
           then JsrVersionDownloads.version v else "Unknown") /\
        DownloadSummary.latestVersionDownloads summary
        = Spec.sum_counts (or_empty (JsrVersionDownloads.downloads v))
    end.
Proof.
  intros H. exists (summaryOfDownloads d).
  split; [apply summary_of_series; exact H|].
  unfold summaryOfDownloads. simpl.
  destruct (JsrDownloads.recentVersions d) as [[|v rv]|]; simpl;
    try (split; [discriminate|split; reflexivity]).
  split.
  - destruct (JsrVersionDownloads.version v) as [|c v']; simpl; discriminate.
  - split; [reflexivity|].
    destruct (JsrVersionDownloads.downloads v) as [dl|]; simpl; [|reflexivity].
    rewrite reduce_count_sum.
    destruct (Spec.sum_counts dl =? 0) eqn:E; [|reflexivity].
    apply Z.eqb_eq in E. lia.
Qed.

End AggregatorMore.

(** ** More on the search gateway *)

Section SearchMore.

Context {World : Type} {Sv : Services World}.

(** X7. [queryOrama] never throws and sends exactly one request; an
    answer of the client is returned as it is, while a rejection or a
    [null] answer becomes a result with count 0, no hit and a non-empty
    [error] message. *)
Theorem queryOrama_absorbs_failures (query : string) (options : Options.t)
    (s : Async.St World) :
  exists r s',
    queryOrama query options s = (Returned r, s') /\
    trace s' = trace s ++ [CallSearch (queryOrama_params query options)] /\
    match fst (client_search (queryOrama_params query options) (world s)) with
    | Returned (Some res) => r = res
    | Returned None =>
        r = search_failed "Search failed: received null response"
    | Thrown _ =>
        OramaSearchResult.count r = 0 /\
        OramaSearchResult.hits r = Some [] /\
        exists message,
          OramaSearchResult.error r = Some message /\
          truthy_str message = true
    end.
Proof.
  unfold queryOrama, try_catch, bind, request, ret.
  destruct (client_search (queryOrama_params query options) (world s))
    as [[[res|]|e] w']; cbn [fst].
  - eexists _, _. repeat split.
  - eexists _, _. repeat split.
  - destruct e as [message [response|]|image];
      eexists _, _; (split; [reflexivity|]); (split; [reflexivity|]);
      (split; [reflexivity|]); (split; [reflexivity|]);
      eexists; (split; [reflexivity|]); reflexivity.
Qed.

(** X8. [relevanceSearch] never throws and sends one request that is
    always in fulltext mode with the boosts description 2.0, name 1.5,
    scope 0.8, id 0.3, whatever mode and boosts the caller passes; its
    limit is the caller's limit, or 10 when that is absent, undefined
    or 0, so it is never 0. *)
Theorem relevanceSearch_fixes_mode_and_boost (query : string)
    (options : Options.t) (s : Async.St World) :
  exists r s' p,
    relevanceSearch query options s = (Returned r, s') /\
    trace s' = trace s ++ [CallSearch p] /\
    SearchParams.term p = query /\
    SearchParams.mode p = Some fulltext /\
    SearchParams.boost p
    = Some [("description", 2.0); ("name", 1.5); ("scope", 0.8);
            ("id", 0.3)]%Q /\
    SearchParams.limit p = Some (or_num (get (Options.limit options)) 10) /\
    SearchParams.limit p <> Some 0.
Proof.
  unfold relevanceSearch.
  destruct (queryOrama_returns query (relevanceOptions options) s)
    as (r & w' & H & _).
  eexists r, _, _. split; [exact H|]. split; [reflexivity|].
  repeat split.
  cbn. intros E. injection E as E.
  destruct (get (Options.limit options)) as [v|]; simpl in E; [|discriminate].
  destruct (v =? 0) eqn:Ev; [discriminate|].
  apply Z.eqb_neq in Ev. contradiction.
Qed.

(** X9. [getSearchCapabilities] never throws and always reports
    [success: true], also when the backend rejects the probe or answers
    [null]; then [count] is 0 and [sample] is absent. Otherwise [count]
    is the number of hits answered and [sample] the name of the first
    one, if it is not empty. *)
Theorem getSearchCapabilities_always_succeeds (s : Async.St World) :
  exists c s',
    getSearchCapabilities s = (Returned c, s') /\
    SearchCapabilities.success c = true /\
    SearchCapabilities.query c = "http" /\
    SearchCapabilities.mode c = "fulltext" /\
    trace s' = trace s ++ [CallSearch (queryOrama_params "http" capabilitiesOptions)] /\
    match fst (client_search (queryOrama_params "http" capabilitiesOptions)
                 (world s)) with
    | Returned (Some res) =>
        SearchCapabilities.count c
        = Z.of_nat (List.length (or_empty (OramaSearchResult.hits res))) /\
        SearchCapabilities.sample c
        = match or_empty (OramaSearchResult.hits res) with
          | [] => None
          | hit :: _ =>
              if truthy_str (PackageInfo.name (OramaHit.document hit))
              then Some (PackageInfo.name (OramaHit.document hit)) else None
          end
    | Returned None | Thrown _ =>
        SearchCapabilities.count c = 0 /\ SearchCapabilities.sample c = None
    end.
Proof.
  unfold getSearchCapabilities. cbv zeta.
  destruct (queryOrama_returns "http" capabilitiesOptions s)
    as (r & w' & H & Hr).
  eexists _, _. split; [unfold bind; rewrite H; reflexivity|].
  cbn [SearchCapabilities.success SearchCapabilities.query
       SearchCapabilities.mode SearchCapabilities.count
       SearchCapabilities.sample trace].
  do 4 (split; [reflexivity|]).
  destruct (fst (client_search (queryOrama_params "http" capabilitiesOptions)
                   (world s))) as [[res|]|e].
  - subst r. unfold firstHit.
    destruct (OramaSearchResult.hits res) as [[|hit hits]|]; cbn;
      split; reflexivity.
  - unfold firstHit. rewrite Hr. split; reflexivity.
  - unfold firstHit. rewrite Hr. split; reflexivity.
Qed.

(** X10. [getPackageInfoDirect] asks the direct endpoint first and
    returns its answer; only when that request throws does it ask the
    API, and then its outcome, value or error, is the one of the API
    request: the first error is dropped. *)
Theorem getPackageInfoDirect_falls_back (scope name : string)
    (s : Async.St World) :
  let direct := ("/@" ++ scope ++ "/" ++ name ++ "/meta.json")%string in
  let api := ("/scopes/" ++ scope ++ "/packages/" ++ name)%string in
  match fetch_direct_package direct (world s) with
  | (Returned info, w1) =>
      getPackageInfoDirect scope name s
      = (Returned info, Async.mkSt w1 (trace s ++ [CallJSRDirect direct]))
  | (Thrown _, w1) =>
      getPackageInfoDirect scope name s
      = (fst (fetch_api_package api w1),
         Async.mkSt (snd (fetch_api_package api w1))
           (trace s ++ [CallJSRDirect direct; CallJSRAPI api]))
  end.
Proof.
  cbv zeta.
  unfold getPackageInfoDirect, getPackageDetails, fetchJSRDirect,
    fetchJSRAPI_package, try_catch, request.
  destruct (fetch_direct_package _ (world s)) as [[info|e] w1]; [reflexivity|].
  cbn [world trace].
  destruct (fetch_api_package _ w1) as [r2 w2].
  rewrite <- app_assoc. reflexivity.
Qed.

End SearchMore.

(** ** Requests that read the HTTP response *)

Section FilesMore.

Context {World : Type} {Wb : Web World}.

(** X11. [packageExists] never throws and sends one request; it
    answers [true] exactly when that request resolves with an [ok]
    response, and [false] for any other status and for a rejected
    request. *)
Theorem packageExists_never_throws (scope name : string) (s : Async.St World) :
  let path := ("/@" ++ scope ++ "/" ++ name ++ "/meta.json")%string in
  exists b s',
    packageExists scope name s = (Returned b, s') /\
    trace s' = trace s ++ [CallJSRDirect path] /\
    b = match fst (fetch JSR_WEB_BASE path (world s)) with
        | Returned response => Response.ok response
        | Thrown _ => false
        end.
Proof.
  cbv zeta. unfold packageExists, fetchWrapper, try_catch, bind, request,
    throw, ret, call_of.
  destruct (fetch JSR_WEB_BASE _ (world s)) as [[response|e] w']; cbn [fst].
  - destruct response as [[|] status statusText text];
      cbn [Response.ok negb]; eexists _, _; repeat split.
  - eexists _, _. repeat split.
Qed.

(** X12. [getPackageFile] sends one request. It returns what
    [response.text()] gives when the response is [ok], rethrows a
    rejection of the request, and for any other status throws
    ["HTTP error! status: <status>"]; its own "File not found" error is
    never thrown. *)
Theorem getPackageFile_outcomes (scope name version filePath : string)
    (s : Async.St World) :
  let path :=
    ("/@" ++ scope ++ "/" ++ name ++ "/" ++ version ++ "/" ++ filePath)%string in
  trace (snd (getPackageFile scope name version filePath s))
  = trace s ++ [CallJSRDirect path] /\
  fst (getPackageFile scope name version filePath s)
  = match fst (fetch JSR_WEB_BASE path (world s)) with
    | Thrown e => Thrown e
    | Returned response =>
        if Response.ok response then Response.text response
        else Thrown (JsError.Error
                       ("HTTP error! status: "
                          ++ String_of_num (Response.status response))
                       None)
    end.
Proof.
  cbv zeta. unfold getPackageFile, fetchWrapper, response_text, bind, request,
    throw, ret, call_of.
  destruct (fetch JSR_WEB_BASE _ (world s)) as [[response|e] w']; cbn [fst].
  - destruct response as [[|] status statusText [text|e]];
      cbn [Response.ok Response.status Response.text negb];
      split; reflexivity.
  - split; reflexivity.
Qed.

End FilesMore.

(** ** More on the enrichment pipeline *)

Section PipelineMore.

Context {World : Type} {Sv : Services World}.

Lemma slice_prefix {A} (l : list A) (n : Z) :
  0 <= n -> slice l 0 (Some n) = firstn (Z.to_nat n) l.
Proof.
  intros Hn. unfold slice. cbn [Z.ltb Z.compare].
  destruct (n <? 0) eqn:E; [apply Z.ltb_lt in E; lia|].
  replace (Z.min 0 (Z.of_nat (List.length l))) with 0 by lia.
  cbn [Z.to_nat skipn]. rewrite Z.sub_0_r.
  destruct (Z.le_ge_cases n (Z.of_nat (List.length l))) as [Hle|Hge].
  - replace (Z.min n (Z.of_nat (List.length l))) with n by lia. reflexivity.
  - replace (Z.min n (Z.of_nat (List.length l)))
      with (Z.of_nat (List.length l)) by lia.
    rewrite Nat2Z.id, firstn_all, firstn_all2 by lia. reflexivity.
Qed.

Lemma summary_trace (scope name : string) (s : Async.St World) :
  trace (snd (getPackageDownloadSummary scope name s))
  = trace s ++ [CallJSRAPI ("/scopes/" ++ scope ++ "/packages/" ++ name
                              ++ "/downloads")].
Proof.
  unfold getPackageDownloadSummary, getPackageDownloads, fetchJSRAPI_downloads,
    try_catch, bind, request, ret.
  destruct (fetch_api_downloads _ (world s)) as [[d|e] w']; reflexivity.
Qed.

Lemma enhanceHit_trace (hit : OramaHit.t) (s : Async.St World) :
  trace (snd (enhanceHit hit s)) = trace s ++ [downloadsCall hit].
Proof.
  destruct (enhanceHit_spec hit s) as (summary & s' & Hsum & Hx).
  rewrite Hx. cbn [snd].
  pose proof (summary_trace (PackageInfo.scope (OramaHit.document hit))
                (PackageInfo.name (OramaHit.document hit)) s) as Ht.
  rewrite Hsum in Ht. exact Ht.
Qed.

(** The enrichment sends one download request per hit, in the order of
    the hits. *)
Lemma enrichment_trace (l : list OramaHit.t) :
  forall s : Async.St World,
    trace (snd (promise_all_map enhanceHit l s))
    = trace s ++ map downloadsCall l.
Proof.
  induction l as [|x xs IH]; intros s.
  - simpl. rewrite app_nil_r. reflexivity.
  - pose proof (enhanceHit_trace x s) as Hx.
    destruct (enhanceHit_spec x s) as (summary & s1 & _ & Hrun).
    rewrite Hrun in Hx. cbn [snd] in Hx.
    pose proof (IH s1) as Hxs.
    destruct (enrichment_returns xs s1) as (ys & s' & Hys).
    rewrite Hys in Hxs. cbn [snd] in Hxs.
    simpl. unfold bind at 1. rewrite Hrun.
    unfold bind at 1. rewrite Hys. cbn [snd ret].
    rewrite Hxs, Hx, <- app_assoc. reflexivity.
Qed.

(** X13. When the limit in force ([options.limit || 10]) is not
    negative and the first search resolves the original package,
    [findSimilarPackages] returns that package with at most that many
    hits, and they are the first ones, in the order of the backend, of
    the second search's hits with the original package removed. *)
Theorem similar_hits_are_a_ranked_prefix (packageName : string)
    (options : Options.t) (s : Async.St World) :
  0 <= or_num (get (Options.limit options)) 10 ->
  exists packageResult s1,
    queryOrama packageName resolveOptions s = (Returned packageResult, s1) /\
    match OramaSearchResult.hits packageResult with
    | None | Some [] =>
        findSimilarPackages packageName options s
        = (Returned packageNotFound, s1)
    | Some (hit0 :: _) =>
        let pkg := OramaHit.document hit0 in
        exists similarResults s2 r s',
          queryOrama (searchQueryOf pkg) (similarOptions options) s1
          = (Returned similarResults, s2) /\
          findSimilarPackages packageName options s = (Returned r, s') /\
          SimilarResult.originalPackage r = Some pkg /\
          Z.of_nat (List.length (SimilarResult.hits r))
          <= or_num (get (Options.limit options)) 10 /\
          map hit_of (SimilarResult.hits r)
          = firstn (Z.to_nat (or_num (get (Options.limit options)) 10))
              (filter (fun hit => negb (PackageInfo.id (OramaHit.document hit)
                                          =? PackageInfo.id pkg)%string)
                 (or_empty (OramaSearchResult.hits similarResults)))
    end.
Proof.
  intros Hlimit.
  destruct (findSimilarPackages_run packageName options s)
    as (packageResult & s1 & H1 & _ & H).
  exists packageResult, s1. split; [exact H1|].
  destruct (OramaSearchResult.hits packageResult) as [[|hit0 rest]|];
    try exact H.
  destruct H as (similarResults & s2 & enhanced & s' & H2 & _ & _ & Hmap & H).
  assert (Hpre : map hit_of enhanced
                 = firstn (Z.to_nat (or_num (get (Options.limit options)) 10))
                     (filter (fun hit =>
                                negb (PackageInfo.id (OramaHit.document hit)
                                        =? PackageInfo.id (OramaHit.document hit0))%string)
                        (or_empty (OramaSearchResult.hits similarResults)))).
  { rewrite Hmap. unfold limitResults. rewrite slice_prefix by exact Hlimit.
    unfold filterOriginal.
    destruct (OramaSearchResult.hits similarResults); reflexivity. }
  cbv zeta. eexists similarResults, s2, _, s'.
  split; [exact H2|]. split; [exact H|].
  cbn [SimilarResult.hits SimilarResult.originalPackage].
  split; [reflexivity|]. split; [|exact Hpre].
  rewrite <- (length_map hit_of), Hpre.
  pose proof (firstn_le_length
                (Z.to_nat (or_num (get (Options.limit options)) 10))
                (filter (fun hit =>
                           negb (PackageInfo.id (OramaHit.document hit)
                                   =? PackageInfo.id (OramaHit.document hit0))%string)
                   (or_empty (OramaSearchResult.hits similarResults)))).
  lia.
Qed.

(** X14. With [includeDownloads] not [false], the requests of
    [findSimilarPackages] are: the resolving search alone when it has
    no hit; otherwise that search, the similarity search, and exactly
    one download request per returned hit, in the order of the hits. *)
Theorem one_download_request_per_hit (packageName : string)
    (options : Options.t) (s : Async.St World) :
  not_false (get (Options.includeDownloads options)) = true ->
  exists packageResult s1,
    queryOrama packageName resolveOptions s = (Returned packageResult, s1) /\
    match OramaSearchResult.hits packageResult with
    | None | Some [] =>
        findSimilarPackages packageName options s
        = (Returned packageNotFound, s1) /\
        trace s1
        = trace s ++ [CallSearch (queryOrama_params packageName resolveOptions)]
    | Some (hit0 :: _) =>
        let pkg := OramaHit.document hit0 in
        exists r s',
          findSimilarPackages packageName options s = (Returned r, s') /\
          SimilarResult.originalPackage r = Some pkg /\
          trace s'
          = trace s
            ++ [CallSearch (queryOrama_params packageName resolveOptions);
                CallSearch (queryOrama_params (searchQueryOf pkg)
                              (similarOptions options))]
            ++ map (fun e => downloadsCall (hit_of e)) (SimilarResult.hits r)
    end.
Proof.
  intros Hinc.
  destruct (findSimilarPackages_run packageName options s)
    as (packageResult & s1 & H1 & Ht1 & H).
  exists packageResult, s1. split; [exact H1|].
  destruct (OramaSearchResult.hits packageResult) as [[|hit0 rest]|];
    try (split; [exact H|exact Ht1]).
  destruct H as (similarResults & s2 & enhanced & s' & H2 & Ht2 & Hen & Hmap & H).
  rewrite Hinc in Hen. cbv zeta.
  eexists _, s'. split; [exact H|].
  cbn [SimilarResult.hits SimilarResult.originalPackage].
  split; [reflexivity|].
  pose proof (enrichment_trace
                (limitResults options
                   (filterOriginal (OramaHit.document hit0) similarResults)) s2)
    as Ht3.
  rewrite Hen in Ht3. cbn [snd] in Ht3.
  rewrite Ht3, Ht2, Ht1, <- Hmap, map_map, <- !app_assoc. reflexivity.
Qed.

(** X15. With [includeDownloads: false], no request goes to the
    registry: the only requests are the resolving search and, when it
    resolves the package, the similarity search; the package is then
    returned with hits that carry no [downloads]. *)
Theorem no_downloads_when_not_requested (packageName : string)
    (options : Options.t) (s : Async.St World) :
  get (Options.includeDownloads options) = Some false ->
  exists packageResult s1,
    queryOrama packageName resolveOptions s = (Returned packageResult, s1) /\
    match OramaSearchResult.hits packageResult with
    | None | Some [] =>
        findSimilarPackages packageName options s
        = (Returned packageNotFound, s1) /\
        trace s1
        = trace s ++ [CallSearch (queryOrama_params packageName resolveOptions)]
    | Some (hit0 :: _) =>
        let pkg := OramaHit.document hit0 in
        exists similarResults s2 r s',
          queryOrama (searchQueryOf pkg) (similarOptions options) s1
          = (Returned similarResults, s2) /\
          findSimilarPackages packageName options s = (Returned r, s') /\
          SimilarResult.originalPackage r = Some pkg /\
          map hit_of (SimilarResult.hits r)
          = limitResults options (filterOriginal pkg similarResults) /\
          Forall (fun e => EnhancedOramaHit.downloads e = None)
                 (SimilarResult.hits r) /\
          trace s'
          = trace s
            ++ [CallSearch (queryOrama_params packageName resolveOptions);
                CallSearch (queryOrama_params (searchQueryOf pkg)
                              (similarOptions options))]
    end.
Proof.
  intros Hinc.
  destruct (findSimilarPackages_run packageName options s)
    as (packageResult & s1 & H1 & Ht1 & H).
  exists packageResult, s1. split; [exact H1|].
  destruct (OramaSearchResult.hits packageResult) as [[|hit0 rest]|];
    try (split; [exact H|exact Ht1]).
  destruct H as (similarResults & s2 & enhanced & s' & H2 & Ht2 & Hen & Hmap & H).
  rewrite Hinc in Hen. cbn [not_false] in Hen. injection Hen as <- <-.
  cbv zeta. eexists similarResults, s2, _, s2.
  split; [exact H2|]. split; [exact H|].
  cbn [SimilarResult.hits SimilarResult.originalPackage].
  split; [reflexivity|]. split; [exact Hmap|]. split.
  - apply Forall_forall. intros e He. apply in_map_iff in He.
    destruct He as (hit & <- & _). reflexivity.
  - rewrite Ht2, Ht1, <- app_assoc. reflexivity.
Qed.

(** X16. The result of [findSimilarPackages] has one of two shapes:
    either the original package is present, [error] is absent and
    [count] is the number of hits; or the original package is absent,
    [error] is "Package not found", and there is no hit and count 0. *)
Theorem similar_result_shape (packageName : string) (options : Options.t)
    (s : Async.St World) :
  exists r s',
    findSimilarPackages packageName options s = (Returned r, s') /\
    SimilarResult.count r = Z.of_nat (List.length (SimilarResult.hits r)) /\
    match SimilarResult.originalPackage r with
    | Some _ => SimilarResult.error r = None
    | None =>
        SimilarResult.error r = Some "Package not found" /\
        SimilarResult.hits r = [] /\
        SimilarResult.count r = 0
    end.
Proof.
  destruct (findSimilarPackages_run packageName options s)
    as (packageResult & s1 & H1 & _ & H).
  destruct (OramaSearchResult.hits packageResult) as [[|hit0 rest]|] eqn:Hh.
  - eexists _, _. split; [exact H|]. cbn. auto.
  - destruct H as (similarResults & s2 & enhanced & s' & _ & _ & _ & _ & H).
    eexists _, _. split; [exact H|]. cbn. auto.
  - eexists _, _. split; [exact H|]. cbn. auto.
Qed.

End PipelineMore.

(** ** The tools of [mcp.ts] *)

Lemma or_str_truthy (x : option string) (d : string) :
  truthy_str d = true -> truthy_str (or_str x d) = true.
Proof.
  intros Hd. unfold or_str. destruct x as [v|]; [|exact Hd].
  destruct (truthy_str v) eqn:Hv; assumption.
Qed.


Lemma split_slash_spec (s a b : string) :
  split_slash s = Some (a, b) ->
  s = (a ++ "/" ++ b)%string /\ split_slash a = None.
Proof.
  revert a. induction s as [|c s IH]; intros a H; simpl in H; [discriminate|].
  destruct (Ascii.eqb c "/") eqn:Ec.
  - apply Ascii.eqb_eq in Ec. subst c. injection H as <- <-.
    split; reflexivity.
  - destruct (split_slash s) as [[a' b']|]; [|discriminate].
    injection H as <- <-.
    destruct (IH a' eq_refl) as [-> Ha].
    split; [reflexivity|]. simpl. rewrite Ec, Ha. reflexivity.
Qed.

Lemma split_slash_join (a b : string) :
  split_slash a = None -> split_slash (a ++ "/" ++ b) = Some (a, b).
Proof.
  induction a as [|c a IH]; intros H; simpl in *; [reflexivity|].
  destruct (Ascii.eqb c "/"); [discriminate|].
  destruct (split_slash a) as [[x y]|]; [discriminate|].
  rewrite IH by reflexivity. reflexivity.
Qed.

Lemma match_scope_name_spec (s scope name : string) :
  match_scope_name s = Some (scope, name) ->
  s = (scope ++ "/" ++ name)%string /\
  split_slash scope = None /\
  truthy_str scope = true /\ truthy_str name = true /\
  has_line_terminator name = false.
Proof.
  unfold match_scope_name.
  destruct (split_slash s) as [[a b]|] eqn:Hs; [|discriminate].
  destruct (truthy_str a) eqn:Ha; [|discriminate].
  destruct (truthy_str b) eqn:Hb; [|discriminate].
  destruct (has_line_terminator b) eqn:Hl; [discriminate|].
  cbn. intros H. injection H as <- <-.
  destruct (split_slash_spec s a b Hs) as [-> Hno].
  repeat split; assumption.
Qed.

(** X17. An identifier that the [compare] tool accepts splits into a
    non-empty scope without ["/"] and a non-empty name without line
    terminator, and is [scope/name] or [@scope/name]; the id
    [@scope/name], which the tool writes for an exact match, is accepted
    again and splits into the same scope and name. *)
Theorem match_pkgName_normal_form (pkgName scope name : string) :
  match_pkgName pkgName = Some (scope, name) ->
  (pkgName = scope ++ "/" ++ name \/ pkgName = "@" ++ scope ++ "/" ++ name)%string /\
  scope <> "" /\ name <> "" /\
  split_slash scope = None /\
  has_line_terminator name = false /\
  match_pkgName ("@" ++ scope ++ "/" ++ name) = Some (scope, name).
Proof.
  intros H.
  assert (Hshape :
    (pkgName = scope ++ "/" ++ name \/ pkgName = "@" ++ scope ++ "/" ++ name)%string /\
    split_slash scope = None /\
    truthy_str scope = true /\ truthy_str name = true /\
    has_line_terminator name = false).
  { unfold match_pkgName in H.
    destruct pkgName as [|c rest]; [discriminate|].
    destruct (Ascii.eqb c "@") eqn:Ec.
    - apply Ascii.eqb_eq in Ec. subst c.
      destruct (match_scope_name rest) as [[a b]|] eqn:Hr.
      + injection H as <- <-.
        destruct (match_scope_name_spec _ _ _ Hr) as (-> & Hrest).
        split; [right; reflexivity|exact Hrest].
      + destruct (match_scope_name_spec _ _ _ H) as (-> & Hrest).
        split; [left; reflexivity|exact Hrest].
    - assert (H' : match_scope_name (String c rest) = Some (scope, name)).
      { destruct c as [[] [] [] [] [] [] [] []]; try exact H; discriminate. }
      destruct (match_scope_name_spec _ _ _ H') as (-> & Hrest).
      split; [left; reflexivity|exact Hrest]. }
  destruct Hshape as (Hform & Hno & Hs & Hn & Hl).
  split; [exact Hform|].
  split; [intros ->; discriminate|].
  split; [intros ->; discriminate|].
  split; [exact Hno|]. split; [exact Hl|].
  change ("@" ++ scope ++ "/" ++ name)%string
    with (String "@" (scope ++ "/" ++ name))%string.
  unfold match_pkgName, match_scope_name at 1.
  rewrite split_slash_join by exact Hno.
  rewrite Hs, Hn, Hl. reflexivity.
Qed.

Lemma match_pkgName_normal_form_witness :
  match_pkgName "std/http" = Some ("std", "http") /\
  ("std/http" = "std" ++ "/" ++ "http"
   \/ "std/http" = "@" ++ "std" ++ "/" ++ "http")%string /\
  "std" <> "" /\ "http" <> "" /\
  split_slash "std" = None /\
  has_line_terminator "http" = false /\
  match_pkgName ("@" ++ "std" ++ "/" ++ "http") = Some ("std", "http").
Proof.
  split; [reflexivity|].
  apply (match_pkgName_normal_form "std/http" "std" "http"). reflexivity.
Defined.

Section ToolsMore.

Context {World : Type} {Sv : Services World}.

Variable formatPackageComparison :
  list ComparedPackage.t -> list ComparedPackage.t -> string.

Variable formatSimilarPackages :
  option PackageInfo.t -> list SimilarPackage.t -> string.




(** X19. The [find_similar] tool never throws and never reaches its
    generic error answer. Either it answers that the package was not
    found, or it lists the similar packages: as many as [totalResults]
    says, at most [limit] of them (10 for a limit of 0) when the limit
    is not negative, none of them the original package, and each with a
    non-empty [latestVersion]. *)
Theorem find_similar_tool_outcomes (packageName : string) (limit : Z)
    (s : Async.St World) :
  exists result s',
    find_similar formatSimilarPackages packageName limit s
    = (Returned result, s') /\
    match FindSimilarResult.meta result with
    | None =>
        FindSimilarResult.isError result = true /\
        FindSimilarResult.text result
        = ("Package " ++ dquote ++ packageName ++ dquote
             ++ " not found in JSR registry.")%string
    | Some m =>
        FindSimilarResult.isError result = false /\
        FindSimilarResult.text result
        = formatSimilarPackages (FindSimilarMeta.originalPackage m)
            (FindSimilarMeta.similarPackages m) /\
        FindSimilarMeta.totalResults m
        = Z.of_nat (List.length (FindSimilarMeta.similarPackages m)) /\
        (0 <= limit ->
         FindSimilarMeta.totalResults m <= (if limit =? 0 then 10 else limit)) /\
        exists pkg,
          FindSimilarMeta.originalPackage m = Some pkg /\
          Forall (fun p => SimilarPackage.id p <> PackageInfo.id pkg /\
                           SimilarPackage.latestVersion p <> "")
                 (FindSimilarMeta.similarPackages m)
    end.
Proof.
  destruct (findSimilarPackages_run packageName (toolOptions limit) s)
    as (packageResult & s1 & _ & _ & H).
  unfold find_similar, try_catch, bind, ret.
  destruct (OramaSearchResult.hits packageResult) as [[|hit0 rest]|];
    try (rewrite H; cbn; eexists _, _; split; [reflexivity|];
         split; reflexivity).
  destruct H as (similarResults & s2 & enhanced & s' & _ & _ & _ & Hmap & H).
  rewrite H. cbn.
  eexists _, _. split; [reflexivity|]. cbn.
  split; [reflexivity|]. split; [reflexivity|]. split; [reflexivity|].
  split.
  - intros Hlimit. rewrite length_map, <- (length_map hit_of), Hmap.
    unfold limitResults. cbn [toolOptions Options.limit get or_num].
    assert (Hl : 0 <= (if limit =? 0 then 10 else limit))
      by (destruct (limit =? 0); lia).
    rewrite slice_prefix by exact Hl.
    match goal with |- Z.of_nat (List.length (firstn ?n ?l)) <= _ =>
      pose proof (firstn_le_length n l)
    end.
    lia.
  - exists (OramaHit.document hit0). split; [reflexivity|].
    apply Forall_forall. intros p Hp. apply in_map_iff in Hp.
    destruct Hp as (e & <- & He). split.
    + cbn.
      apply (filterOriginal_excludes _ similarResults (hit_of e)).
      apply (In_slice _ 0
               (Some (or_num (get (Options.limit (toolOptions limit))) 10))).
      fold (limitResults (toolOptions limit)
              (filterOriginal (OramaHit.document hit0) similarResults)).
      rewrite <- Hmap. apply in_map. exact He.
    + cbn. intros Hempty.
      assert (Ht : truthy_str
                     (or_str (PackageInfo.latestVersion (EnhancedOramaHit.document e))
                        (or_str (option_map DownloadSummary.latestVersion
                                   (EnhancedOramaHit.downloads e)) "Unknown"))
                   = true)
        by (apply or_str_truthy, or_str_truthy; reflexivity).
      rewrite Hempty in Ht. discriminate.
Qed.

End ToolsMore.

(** *** Runs for the further properties *)

Lemma totals_and_recent_window_witness :
  let run := getPackageDownloads (Sv := Demo.healthy) "oak" "oak" Demo.st0 in
  let d := Demo.seriesOf 5 in
  run = (Returned d, snd run) /\
  Forall (fun p => 0 <= JsrDownloadPoint.count p)
         (or_empty (JsrDownloads.total d)) /\
  exists summary,
    getPackageDownloadSummary (Sv := Demo.healthy) "oak" "oak" Demo.st0
    = (Returned summary, snd run) /\
    let l := or_empty (JsrDownloads.total d) in
    let len := Z.of_nat (List.length l) in
    DownloadSummary.totalDownloads summary = Spec.sum_counts l /\
    DownloadSummary.recentDownloads summary
    = Spec.sum_counts (Spec.points l (Z.max 0 (len - 30)) len) /\
    0 <= DownloadSummary.recentDownloads summary
      <= DownloadSummary.totalDownloads summary /\
    (len <= 30 ->
     DownloadSummary.recentDownloads summary
     = DownloadSummary.totalDownloads summary).
Proof.
  assert (Hpos : Forall (fun p => 0 <= JsrDownloadPoint.count p)
                   (or_empty (JsrDownloads.total (Demo.seriesOf 5))))
    by (repeat constructor; simpl; lia).
  split; [reflexivity|]. split; [exact Hpos|].
  apply (totals_and_recent_window (Sv := Demo.healthy) "oak" "oak" Demo.st0);
    [reflexivity|exact Hpos].
Defined.

Lemma bucket_sums_tile_the_tail_witness :
  let run := getPackageDownloads (Sv := Demo.healthy) "std" "http" Demo.st0 in
  let d := Demo.seriesOf 100 in
  run = (Returned d, snd run) /\
  exists summary,
    getPackageDownloadSummary (Sv := Demo.healthy) "std" "http" Demo.st0
    = (Returned summary, snd run) /\
    let l := or_empty (JsrDownloads.total d) in
    let len := Z.of_nat (List.length l) in
    let weeks := Z.min 4 (len / 7) in
    let months := Z.min 6 (len / 30) in
    Z.of_nat (List.length (DownloadSummary.weeklySums summary)) = weeks /\
    sumZ (DownloadSummary.weeklySums summary)
    = Spec.sum_counts (Spec.points l (len - 7 * weeks) len) /\
    sumZ (DownloadSummary.monthlySums summary)
    = Spec.sum_counts (Spec.points l (len - 30 * months) len).
Proof.
  split; [reflexivity|].
  apply (bucket_sums_tile_the_tail (Sv := Demo.healthy)). reflexivity.
Defined.

Lemma lastActivity_is_last_point_witness :
  let run := getPackageDownloads (Sv := Demo.healthy) "std" "http" Demo.st0 in
  let d := Demo.seriesOf 100 in
  run = (Returned d, snd run) /\
  exists summary,
    getPackageDownloadSummary (Sv := Demo.healthy) "std" "http" Demo.st0
    = (Returned summary, snd run) /\
    match rev (or_empty (JsrDownloads.total d)) with
    | [] => DownloadSummary.lastActivity summary = None
    | p :: _ =>
        DownloadSummary.lastActivity summary
        = if truthy_str (JsrDownloadPoint.timeBucket p)
          then Some (JsrDownloadPoint.timeBucket p) else None
    end.
Proof.
  split; [reflexivity|].
  apply (lastActivity_is_last_point (Sv := Demo.healthy)). reflexivity.
Defined.

Lemma last7DaysAverage_is_rounded_mean_witness :
  let run := getPackageDownloads (Sv := Demo.healthy) "oak" "oak" Demo.st0 in
  let d := Demo.seriesOf 5 in
  run = (Returned d, snd run) /\
  Forall (fun p => 0 <= JsrDownloadPoint.count p)
         (or_empty (JsrDownloads.total d)) /\
  0 <= Spec.sum_counts
         (Spec.points (or_empty (JsrDownloads.total d))
            (Z.max 0 (Z.of_nat (List.length (or_empty (JsrDownloads.total d))) - 7))
            (Z.of_nat (List.length (or_empty (JsrDownloads.total d)))))
    < 2 ^ 52 /\
  exists summary,
    getPackageDownloadSummary (Sv := Demo.healthy) "oak" "oak" Demo.st0
    = (Returned summary, snd run) /\
    let l := or_empty (JsrDownloads.total d) in
    let len := Z.of_nat (List.length l) in
    let n := Z.min 7 len in
    let total7 := Spec.sum_counts (Spec.points l (Z.max 0 (len - 7)) len) in
    let average := DownloadSummary.last7DaysAverage summary in
    (len = 0 -> average = 0) /\
    (0 < len ->
     2 * n * average <= 2 * total7 + n < 2 * n * (average + 1)).
Proof.
  assert (Hrange :
    0 <= Spec.sum_counts
           (Spec.points (or_empty (JsrDownloads.total (Demo.seriesOf 5)))
              (Z.max 0 (Z.of_nat (List.length
                 (or_empty (JsrDownloads.total (Demo.seriesOf 5)))) - 7))
              (Z.of_nat (List.length
                 (or_empty (JsrDownloads.total (Demo.seriesOf 5))))))
      < 2 ^ 52)
    by (vm_compute; split; [discriminate|reflexivity]).
  assert (Hcounts :
    Forall (fun p => 0 <= JsrDownloadPoint.count p)
           (or_empty (JsrDownloads.total (Demo.seriesOf 5)))).
  { apply Forall_forall. intros p Hp. apply Z.leb_le. revert p Hp.
    apply forallb_forall. reflexivity. }
  split; [reflexivity|]. split; [exact Hcounts|]. split; [exact Hrange|].
  apply (last7DaysAverage_is_rounded_mean (Sv := Demo.healthy) "oak" "oak"
           Demo.st0); [reflexivity|exact Hcounts|exact Hrange].
Defined.

Lemma averages_extrapolate_the_daily_mean_witness :
  let run := getPackageDownloads (Sv := Demo.healthy) "std" "http" Demo.st0 in
  let d := Demo.seriesOf 100 in
  run = (Returned d, snd run) /\
  Forall (fun p => 0 <= JsrDownloadPoint.count p)
         (or_empty (JsrDownloads.total d)) /\
  0 <= Spec.sum_counts (or_empty (JsrDownloads.total d)) < 2 ^ 47 /\
  exists summary daily,
    getPackageDownloadSummary (Sv := Demo.healthy) "std" "http" Demo.st0
    = (Returned summary, snd run) /\
    let len := Z.of_nat (List.length (or_empty (JsrDownloads.total d))) in
    let total := DownloadSummary.totalDownloads summary in
    DownloadSummary.weeklyAverage summary = 7 * daily /\
    DownloadSummary.monthlyAverage summary = 30 * daily /\
    (len = 0 -> daily = 0) /\
    (0 < len -> 2 * len * daily <= 2 * total + len < 2 * len * (daily + 1)).
Proof.
  assert (Hrange :
    0 <= Spec.sum_counts (or_empty (JsrDownloads.total (Demo.seriesOf 100)))
      < 2 ^ 47)
    by (vm_compute; split; [discriminate|reflexivity]).
  assert (Hcounts :
    Forall (fun p => 0 <= JsrDownloadPoint.count p)
           (or_empty (JsrDownloads.total (Demo.seriesOf 100)))).
  { apply Forall_forall. intros p Hp. apply Z.leb_le. revert p Hp.
    apply forallb_forall. reflexivity. }
  split; [reflexivity|]. split; [exact Hcounts|]. split; [exact Hrange|].
  apply (averages_extrapolate_the_daily_mean (Sv := Demo.healthy) "std" "http"
           Demo.st0); [reflexivity|exact Hcounts|exact Hrange].
Defined.

Lemma latest_version_defaults_witness :
  let run := getPackageDownloads (Sv := Demo.quiet) "std" "http" Demo.st0 in
  let d := Demo.emptySeries in
  run = (Returned d, snd run) /\
  exists summary,
    getPackageDownloadSummary (Sv := Demo.quiet) "std" "http" Demo.st0
    = (Returned summary, snd run) /\
    DownloadSummary.latestVersion summary <> "" /\
    match or_empty (JsrDownloads.recentVersions d) with
    | [] =>
        DownloadSummary.latestVersion summary = "Unknown" /\
        DownloadSummary.latestVersionDownloads summary = 0
    | v :: _ =>
        DownloadSummary.latestVersion summary
        = (if truthy_str (JsrVersionDownloads.version v)
           then JsrVersionDownloads.version v else "Unknown") /\
        DownloadSummary.latestVersionDownloads summary
        = Spec.sum_counts (or_empty (JsrVersionDownloads.downloads v))
    end.
Proof.
  split; [reflexivity|].
  apply (latest_version_defaults (Sv := Demo.quiet)). reflexivity.
Defined.

Lemma similar_hits_are_a_ranked_prefix_witness :
  let options := Demo.limitOnly 2 in
  0 <= or_num (get (Options.limit options)) 10 /\
  exists packageResult s1,
    queryOrama (Sv := Demo.healthy) "@std/http" resolveOptions Demo.st0
    = (Returned packageResult, s1) /\
    match OramaSearchResult.hits packageResult with
    | None | Some [] =>
        findSimilarPackages (Sv := Demo.healthy) "@std/http" options Demo.st0
        = (Returned packageNotFound, s1)
    | Some (hit0 :: _) =>
        let pkg := OramaHit.document hit0 in
        exists similarResults s2 r s',
          queryOrama (Sv := Demo.healthy) (searchQueryOf pkg)
            (similarOptions options) s1
          = (Returned similarResults, s2) /\
          findSimilarPackages (Sv := Demo.healthy) "@std/http" options Demo.st0
          = (Returned r, s') /\
          SimilarResult.originalPackage r = Some pkg /\
          Z.of_nat (List.length (SimilarResult.hits r))
          <= or_num (get (Options.limit options)) 10 /\
          map hit_of (SimilarResult.hits r)
          = firstn (Z.to_nat (or_num (get (Options.limit options)) 10))
              (filter (fun hit => negb (PackageInfo.id (OramaHit.document hit)
                                          =? PackageInfo.id pkg)%string)
                 (or_empty (OramaSearchResult.hits similarResults)))
    end.
Proof.
  split; [simpl; lia|].
  apply (similar_hits_are_a_ranked_prefix (Sv := Demo.healthy)). simpl. lia.
Defined.

Lemma one_download_request_per_hit_witness :
  let options := Demo.limitOnly 5 in
  not_false (get (Options.includeDownloads options)) = true /\
  exists packageResult s1,
    queryOrama (Sv := Demo.healthy) "@std/http" resolveOptions Demo.st0
    = (Returned packageResult, s1) /\
    match OramaSearchResult.hits packageResult with
    | None | Some [] =>
        findSimilarPackages (Sv := Demo.healthy) "@std/http" options Demo.st0
        = (Returned packageNotFound, s1) /\
        trace s1
        = trace Demo.st0
          ++ [CallSearch (queryOrama_params "@std/http" resolveOptions)]
    | Some (hit0 :: _) =>
        let pkg := OramaHit.document hit0 in
        exists r s',
          findSimilarPackages (Sv := Demo.healthy) "@std/http" options Demo.st0
          = (Returned r, s') /\
          SimilarResult.originalPackage r = Some pkg /\
          trace s'
          = trace Demo.st0
            ++ [CallSearch (queryOrama_params "@std/http" resolveOptions);
                CallSearch (queryOrama_params (searchQueryOf pkg)
                              (similarOptions options))]
            ++ map (fun e => downloadsCall (hit_of e)) (SimilarResult.hits r)
    end.
Proof.
  split; [reflexivity|].
  apply (one_download_request_per_hit (Sv := Demo.healthy)). reflexivity.
Defined.

Lemma no_downloads_when_not_requested_witness :
  let options := DemoWeb.withoutDownloads 5 in
  get (Options.includeDownloads options) = Some false /\
  exists packageResult s1,
    queryOrama (Sv := Demo.healthy) "@std/http" resolveOptions Demo.st0
    = (Returned packageResult, s1) /\
    match OramaSearchResult.hits packageResult with
    | None | Some [] =>
        findSimilarPackages (Sv := Demo.healthy) "@std/http" options Demo.st0
        = (Returned packageNotFound, s1) /\
        trace s1
        = trace Demo.st0
          ++ [CallSearch (queryOrama_params "@std/http" resolveOptions)]
    | Some (hit0 :: _) =>
        let pkg := OramaHit.document hit0 in
        exists similarResults s2 r s',
          queryOrama (Sv := Demo.healthy) (searchQueryOf pkg)
            (similarOptions options) s1
          = (Returned similarResults, s2) /\
          findSimilarPackages (Sv := Demo.healthy) "@std/http" options Demo.st0
          = (Returned r, s') /\
          SimilarResult.originalPackage r = Some pkg /\
          map hit_of (SimilarResult.hits r)
          = limitResults options (filterOriginal pkg similarResults) /\
          Forall (fun e => EnhancedOramaHit.downloads e = None)
                 (SimilarResult.hits r) /\
          trace s'
          = trace Demo.st0
            ++ [CallSearch (queryOrama_params "@std/http" resolveOptions);
                CallSearch (queryOrama_params (searchQueryOf pkg)
                              (similarOptions options))]
    end.
Proof.
  split; [reflexivity|].
  apply (no_downloads_when_not_requested (Sv := Demo.healthy)). reflexivity.
Defined.

(** A hundred points with the counts 1 to 100: the figures of the
    summary. *)
Example summary_of_100_points :
  let summary := summaryOfDownloads (Demo.seriesOf 100) in
  DownloadSummary.totalDownloads summary = 5050 /\
  DownloadSummary.recentDownloads summary = 2565 /\
  DownloadSummary.last7DaysAverage summary = 97 /\
  DownloadSummary.weeklyAverage summary = 7 * 51 /\
  DownloadSummary.monthlyAverage summary = 30 * 51 /\
  sumZ (DownloadSummary.weeklySums summary) = 2422 /\
  DownloadSummary.lastActivity summary = Some "day 99".
Proof. repeat split. Qed.

(** The site answers 404 for an unknown package and the network may
    be unreachable: [packageExists] answers [false] both times, and
    [getPackageFile] throws the HTTP error of the wrapper. *)
Example exists_and_file_runs :
  fst (packageExists (Wb := DemoWeb.site) "std" "http" Demo.st0) = Returned true /\
  fst (packageExists (Wb := DemoWeb.site) "std" "nothing" Demo.st0)
  = Returned false /\
  fst (packageExists (Wb := DemoWeb.offline) "std" "http" Demo.st0)
  = Returned false /\
  fst (getPackageFile (Wb := DemoWeb.site) "std" "http" "1.0.0" "mod.ts" Demo.st0)
  = Returned "export {};" /\
  fst (getPackageFile (Wb := DemoWeb.site) "std" "http" "9.9.9" "mod.ts" Demo.st0)
  = Thrown (JsError.Error "HTTP error! status: 404" None).
Proof. repeat split. Qed.

(** The direct endpoint is down: the package information comes from
    the API after two requests. *)
Example info_through_the_api :
  getPackageInfoDirect (Sv := DemoWeb.directDown) "std" "http" Demo.st0
  = (Returned Demo.http,
     Async.mkSt 2%nat [CallJSRDirect "/@std/http/meta.json";
                       CallJSRAPI "/scopes/std/packages/http"]).
Proof. reflexivity. Qed.

(** ** The registry tools of [mcp.ts] *)

Section RegistryToolsMore.

Context {World : Type} {Sv : Services World}.

Variable formatPackageDetails :
  PackageInfo.t -> DownloadSummary.t -> PackageInfo.t -> string.
Variable formatPackageDownloads :
  string -> string -> DownloadSummary.t -> string.

(** X20. The [package_downloads] tool never answers with an error and
    never throws: it sends the one download request for the scope
    without its leading ["@"], and when that request fails it still
    answers with a report, built from the all-zero summary that carries
    the failure message. *)
Theorem package_downloads_never_errors (scope packageName : string)
    (s : Async.St World) :
  exists answer s' summary,
    package_downloads formatPackageDownloads scope packageName s
    = (Returned answer, s') /\
    ToolAnswer.isError answer = false /\
    ToolAnswer.text answer
    = formatPackageDownloads (stripAt scope) packageName summary /\
    ToolAnswer.meta answer
    = Some {| DownloadsMeta.scope := stripAt scope;
              DownloadsMeta.packageName := packageName;
              DownloadsMeta.summary := summary |} /\
    trace s'
    = trace s ++ [CallJSRAPI ("/scopes/" ++ stripAt scope ++ "/packages/"
                                ++ packageName ++ "/downloads")] /\
    match fst (getPackageDownloads (stripAt scope) packageName s) with
    | Returned d => summary = summaryOfDownloads d
    | Thrown e =>
        DownloadSummary.error summary = Some (getErrorMessage e) /\
        DownloadSummary.totalDownloads summary = 0 /\
        DownloadSummary.recentDownloads summary = 0
    end.
Proof.
  pose proof (summary_trace (stripAt scope) packageName s) as Ht.
  unfold package_downloads, try_catch, bind, ret. cbv zeta.
  destruct (getPackageDownloads (stripAt scope) packageName s)
    as [[d|e] s1] eqn:Hfetch;
    [pose proof (summary_of_series _ _ _ _ _ Hfetch) as Hsum
    |pose proof (summary_of_failure _ _ _ _ _ Hfetch) as Hsum];
    rewrite Hsum in Ht |- *; cbn [snd] in Ht;
    eexists _, _, _; (split; [reflexivity|]);
    cbn; repeat split; exact Ht.
Qed.

(** X21. The [package_details] tool never throws. It answers with an
    error, after a single request, when the details request throws; it
    answers with an error when the details arrive but both metadata
    requests throw; in every other case it answers with the details,
    the download summary and the metadata, whether or not the download
    request succeeded. *)
Theorem package_details_outcomes (scope packageName : string)
    (s : Async.St World) :
  let scopeName := stripAt scope in
  let s1 := snd (getPackageDetails scopeName packageName s) in
  let s2 := snd (getPackageDownloadSummary scopeName packageName s1) in
  exists answer s',
    package_details formatPackageDetails scope packageName s
    = (Returned answer, s') /\
    match fst (getPackageDetails scopeName packageName s) with
    | Thrown e =>
        s' = s1 /\
        answer
        = {| ToolAnswer.text :=
               "Error fetching details for @" ++ scope ++ "/" ++ packageName
                 ++ ": " ++ getErrorMessage e;
             ToolAnswer.meta := None;
             ToolAnswer.isError := true |}
    | Returned pkg =>
        exists downloadSummary,
          fst (getPackageDownloadSummary scopeName packageName s1)
          = Returned downloadSummary /\
          match fst (getPackageInfoDirect scopeName packageName s2) with
          | Thrown e =>
              answer
              = {| ToolAnswer.text :=
                     "Error fetching details for @" ++ scope ++ "/"
                       ++ packageName ++ ": " ++ getErrorMessage e;
                   ToolAnswer.meta := None;
                   ToolAnswer.isError := true |}
          | Returned meta =>
              answer
              = {| ToolAnswer.text :=
                     formatPackageDetails pkg downloadSummary meta;
                   ToolAnswer.meta :=
                     Some {| DetailsMeta.package := pkg;
                             DetailsMeta.downloadSummary := downloadSummary;
                             DetailsMeta.metadata := meta |};
                   ToolAnswer.isError := false |}
          end
    end.
Proof.
  cbv zeta. unfold package_details, try_catch, bind, ret. cbv zeta.
  destruct (getPackageDetails (stripAt scope) packageName s)
    as [[pkg|e] s1]; cbn [fst snd].
  - assert (Hsum : exists summary sb,
              getPackageDownloadSummary (stripAt scope) packageName s1
              = (Returned summary, sb)).
    { destruct (getPackageDownloads (stripAt scope) packageName s1)
        as [[d|e] sb] eqn:Hfetch;
        [apply summary_of_series in Hfetch|apply summary_of_failure in Hfetch];
        eauto. }
    destruct Hsum as (summary & sb & Hsum). rewrite Hsum. cbn [fst snd].
    destruct (getPackageInfoDirect (stripAt scope) packageName sb)
      as [[meta|e] sc]; cbn [fst];
      eexists _, _; (split; [reflexivity|]);
      exists summary; split; reflexivity.
  - eexists _, _. split; [reflexivity|]. split; reflexivity.
Qed.

End RegistryToolsMore.
